(** * Quota ledger, photo handler and reconciliation job of the face-swap bot

    A shallow embedding of [research/db/db_requests.py] (the storage layer
    with the quota ledger and the scheduled reconciliation job) and of
    [bot/message_handler.py] (the photo handler and the commands that move
    a user between tiers), followed by the properties of the specification
    stated over these definitions.

    Conventions of the embedding.
    - The SQL tables are the fields of [DB]: the [users] table is keyed by
      the unique [user_id] column and held as two finite maps, one for the
      three name columns and one for the columns that the quota rules
      read; the other tables are lists of rows in insertion order.
    - A storage call that raises inside its [session.begin()] block is
      rolled back: it yields no store ([None]) and the store of before
      goes on.
    - Every coroutine runs to completion before the next one starts; the
      only place where other in-flight tasks are let in is the loop that
      sends the worker's outputs, because the handler re-reads the user row
      there on purpose.
    - A [datetime] is a number of seconds (an integer), a [date] a number
      of days; each handler reads the clock once.  The handlers read the
      local clock of the host ([datetime.now()]); the rows that the
      database stamps by itself ([server_default=func.now()]) carry its
      [CURRENT_TIMESTAMP], which is UTC: [utc_offset] is how far the local
      clock is ahead of UTC.
    - Python's [None] is [None]; a coroutine without [return] yields it. *)

From Stdlib Require Import ZArith String List Lia Bool DecimalString.
From stdpp Require Import base option list gmap strings.

Open Scope string_scope.
Open Scope Z_scope.

(** ** Time *)

Definition timedelta_days (d : Z) : Z := d * 86400.
Definition timedelta_hours (h : Z) : Z := h * 3600.
Definition timedelta_seconds (s : Z) : Z := s.

(** [datetime.date()] *)
Definition date (t : Z) : Z := t / 86400.

(** [str(n)] on integers, as the f-strings of the handler use it. *)
Definition str (n : Z) : string := NilZero.string_of_int (Z.to_int n).

(** [l[i]] with Python's negative indices; [None] is an [IndexError]. *)
Definition item {A : Type} (l : list A) (i : Z) : option A :=
  let n := Z.of_nat (length l) in
  if 0 <=? i then l !! Z.to_nat i
  else if 0 <=? n + i then l !! Z.to_nat (n + i)
  else None.

(** ** Tables of [db_requests.py] *)

Record PremiumPurchase := mkPremiumPurchase {
  purchase_user_id : Z;
  purchase_date : Z;
  expiration_date : Z;
  targets_increment : Z;
  request_increment : Z
}.

(** The [user_id] column is the key of the [users] map; [mode] is declared
    an Integer but only ever holds the strings the handler stores in it;
    [premium_expiration] is a [Date] column and holds a day. *)
Record User := mkUser {
  mode : string;
  receive_target_flag : Z;
  status : string;
  requests_left : Z;
  targets_left : Z;
  last_photo_sent_timestamp : Z;
  premium_expiration : option Z
}.

Record ImageName := mkImageName {
  image_user_id : Z;
  input_image_name : string;
  output_image_names : option string;
  image_timestamp : Z
}.

Record SchedulerLog := mkSchedulerLog {
  job_name : string;
  run_datetime : Z;
  log_status : string;
  details : option string
}.

(** The columns [username], [first_name] and [last_name] of a [users]
    row.  No quota rule reads them; they are kept in a map of their own,
    [user_names], next to the other columns of the row. *)
Record Names := mkNames {
  username : string;
  first_name : string;
  last_name : string
}.

(** The store: the tables, and the offset of the host's local clock from
    the UTC clock with which the database stamps rows. *)
Record DB := mkDB {
  users : gmap Z User;
  user_names : gmap Z Names;
  premium_purchases : list PremiumPurchase;
  image_names : list ImageName;
  scheduler_logs : list SchedulerLog;
  utc_offset : Z
}.

Definition empty_db : DB := mkDB ∅ ∅ [] [] [] 0.

Definition with_users (f : gmap Z User -> gmap Z User) (db : DB) : DB :=
  mkDB (f (users db)) (user_names db) (premium_purchases db) (image_names db)
       (scheduler_logs db) (utc_offset db).

Definition with_user_names (f : gmap Z Names -> gmap Z Names) (db : DB) : DB :=
  mkDB (users db) (f (user_names db)) (premium_purchases db) (image_names db)
       (scheduler_logs db) (utc_offset db).

Definition with_premium_purchases
    (f : list PremiumPurchase -> list PremiumPurchase) (db : DB) : DB :=
  mkDB (users db) (user_names db) (f (premium_purchases db)) (image_names db)
       (scheduler_logs db) (utc_offset db).

Definition with_image_names (f : list ImageName -> list ImageName) (db : DB) : DB :=
  mkDB (users db) (user_names db) (premium_purchases db) (f (image_names db))
       (scheduler_logs db) (utc_offset db).

Definition with_scheduler_logs (f : list SchedulerLog -> list SchedulerLog) (db : DB) : DB :=
  mkDB (users db) (user_names db) (premium_purchases db) (image_names db)
       (f (scheduler_logs db)) (utc_offset db).

(** The sender of an update as aiogram reports it, besides the id: each
    of the names may be missing. *)
Record Profile := mkProfile {
  tg_username : option string;
  tg_first_name : option string;
  tg_last_name : option string
}.

(** [s.replace(' ', '_')] *)
Definition space : Ascii.ascii := Ascii.ascii_of_nat 32.
Definition underscore : Ascii.ascii := Ascii.ascii_of_nat 95.

Fixpoint replace_space (s : string) : string :=
  match s with
  | EmptyString => EmptyString
  | String a rest =>
      String (if Ascii.eqb a space then underscore else a) (replace_space rest)
  end.

(** Field assignments on a loaded row. *)

Definition set_mode (v : string) (u : User) : User :=
  mkUser v (receive_target_flag u) (status u) (requests_left u) (targets_left u)
         (last_photo_sent_timestamp u) (premium_expiration u).

Definition set_receive_target_flag (v : Z) (u : User) : User :=
  mkUser (mode u) v (status u) (requests_left u) (targets_left u)
         (last_photo_sent_timestamp u) (premium_expiration u).

Definition set_status (v : string) (u : User) : User :=
  mkUser (mode u) (receive_target_flag u) v (requests_left u) (targets_left u)
         (last_photo_sent_timestamp u) (premium_expiration u).

Definition set_requests (v : Z) (u : User) : User :=
  mkUser (mode u) (receive_target_flag u) (status u) v (targets_left u)
         (last_photo_sent_timestamp u) (premium_expiration u).

Definition set_targets (v : Z) (u : User) : User :=
  mkUser (mode u) (receive_target_flag u) (status u) (requests_left u) v
         (last_photo_sent_timestamp u) (premium_expiration u).

Definition set_last_photo_sent_timestamp (v : Z) (u : User) : User :=
  mkUser (mode u) (receive_target_flag u) (status u) (requests_left u) (targets_left u)
         v (premium_expiration u).

Definition set_premium_expiration (v : option Z) (u : User) : User :=
  mkUser (mode u) (receive_target_flag u) (status u) (requests_left u) (targets_left u)
         (last_photo_sent_timestamp u) v.

(** [user.status == 'premium'] *)
Definition is_premium (u : User) : bool := String.eqb (status u) "premium".

(** Truth value of the integer flag. *)
Definition flag_on (u : User) : bool := negb (receive_target_flag u =? 0).

Section Storage.

(** Constants of [bot.handlers.constants], which the repository does not
    ship with these sources, and the instant at which the module was
    imported (the column default [datetime.now()] is evaluated once). *)
Variable PREMIUM_DAYS : Z.
Variable import_time : Z.

(** [User(...)] with the column defaults. *)
Definition new_user (mode0 : string) : User :=
  mkUser mode0 0 "free" 10 0 import_time None.

(** [insert_user]: creates the row with the names given, or rewrites the
    three name columns of an existing one. *)
Definition insert_user (user_id : Z) (username first_name last_name : string) (db : DB)
    : DB :=
  let username := replace_space username in
  let first_name := replace_space first_name in
  let last_name := replace_space last_name in
  match users db !! user_id with
  | None =>
      with_user_names (insert user_id (mkNames username first_name last_name))
        (with_users (insert user_id (new_user "1")) db)
  | Some _ =>
      with_user_names (insert user_id (mkNames username first_name last_name)) db
  end.

(** [exist_user_check]: [user.username or ''] and so on. *)
Definition exist_user_check (user_id : Z) (user : Profile) (db : DB) : DB :=
  let username := default "" (tg_username user) in
  let first_name := default "" (tg_first_name user) in
  let last_name := default "" (tg_last_name user) in
  insert_user user_id username first_name last_name db.

Definition update_user_mode (user_id : Z) (m : string) (db : DB) : DB :=
  with_users (alter (set_mode m) user_id) db.

(** [decrement_requests_left] is declared [-> None] and has no [return]. *)
Definition decrement_requests_row (n : Z) (u : User) : User :=
  if 0 <? requests_left u
  then set_requests (Z.max 0 (requests_left u - n)) u
  else set_requests 0 u.

Definition decrement_requests_left (user_id : Z) (n : Z) (db : DB) : option Z * DB :=
  (None, with_users (alter (decrement_requests_row n) user_id) db).

Definition decrement_targets_row (n : Z) (u : User) : User :=
  if 0 <? targets_left u
  then set_targets (Z.max 0 (targets_left u - n)) u
  else u.

Definition decrement_targets_left (user_id : Z) (n : Z) (db : DB) : option Z * DB :=
  (None, with_users (alter (decrement_targets_row n) user_id) db).

(** [set_requests_left].  [premium_purchases] is a list relationship of
    the row, and the assignment [user.premium_purchases = None] raises a
    [TypeError]: it comes after [status] and [premium_expiration] were
    assigned on the loaded object and before the two counters are.  The
    exception leaves the [session.begin()] block, which rolls back, so
    nothing of it reaches the store.  [None] is that exception; for a
    [user_id] that is not in the table the body of [if user:] is skipped
    and the call returns. *)
Definition set_requests_left (user_id : Z) (number : Z) (db : DB) : option DB :=
  match users db !! user_id with
  | None => Some db
  | Some _ => None
  end.

(** [premium_expiration] is a [Date] column: of the datetime assigned to it
    the day is stored. *)
Definition buy_premium_row (new_expiration_date : Z) (u : User) : User :=
  set_premium_expiration (Some (date new_expiration_date))
    (set_status "premium"
       (set_targets (targets_left u + 10)
          (set_requests (requests_left u + 100) u))).

Definition buy_premium (user_id : Z) (now : Z) (db : DB) : DB :=
  match users db !! user_id with
  | None => db
  | Some _ =>
      let new_expiration_date := now + timedelta_days PREMIUM_DAYS in
      let new_premium :=
        mkPremiumPurchase user_id (date now) (date new_expiration_date) 10 100 in
      with_users (alter (buy_premium_row new_expiration_date) user_id)
        (with_premium_purchases (fun ps => (ps ++ [new_premium])%list) db)
  end.

Definition create_image_entry (user_id : Z) (input : string) (now : Z) (db : DB) : DB :=
  with_image_names (fun l => (l ++ [mkImageName user_id input None now])%list) db.

Definition image_entry_matches (user_id : Z) (input : string) (e : ImageName) : bool :=
  (image_user_id e =? user_id) && String.eqb (input_image_name e) input.

(** [','.join(output_image_names) if output_image_names else None] *)
Definition str_outputs (outs : list string) : option string :=
  match outs with
  | [] => None
  | _ => Some (String.concat "," outs)
  end.

Definition update_image_row (user_id : Z) (input : string) (outs : list string) (now : Z)
    (e : ImageName) : ImageName :=
  if image_entry_matches user_id input e
  then mkImageName (image_user_id e) (input_image_name e) (str_outputs outs) now
  else e.

(** [update_image_entry]: [scalar_one_or_none] raises when several rows
    match, which is the [None] result here. *)
Definition update_image_entry (user_id : Z) (input : string) (outs : list string) (now : Z)
    (db : DB) : option DB :=
  match List.filter (image_entry_matches user_id input) (image_names db) with
  | [] => Some db
  | [_] => Some (with_image_names (map (update_image_row user_id input outs now)) db)
  | _ => None
  end.

Definition log_input_image_data (user_id : Z) (user : Profile) (input : string) (now : Z)
    (db : DB) : DB :=
  create_image_entry user_id input now (exist_user_check user_id user db).

Definition log_output_image_data (user_id : Z) (user : Profile) (input : string)
    (outs : list string) (now : Z) (db : DB) : option DB :=
  update_image_entry user_id input outs now (exist_user_check user_id user db).

Definition fetch_user_data (user_id : Z) (db : DB) : option User := users db !! user_id.

Definition update_photo_timestamp (user_id : Z) (timestamp : Z) (db : DB) : DB :=
  with_users (alter (set_last_photo_sent_timestamp timestamp) user_id) db.

Definition toggle_receive_target_flag (user_id : Z) (flag : Z) (db : DB) : DB :=
  with_users (alter (set_receive_target_flag flag) user_id) db.

(** Modelled from the spec: [receive_user], which the handler imports from
    its storage module, is not among the functions of [db_requests.py]; it
    is the repository's [get_user(id) -> User|None]. *)
Definition receive_user (user_id : Z) (db : DB) : option User := users db !! user_id.

(** *** Scheduler log *)

(** The newest [run_datetime] among the rows of a job: the only field that
    [log_scheduler_run] reads from
    [select(SchedulerLog).filter_by(job_name=...).order_by(desc(run_datetime)).limit(1)]. *)
Fixpoint last_entry (job : string) (logs : list SchedulerLog) : option Z :=
  match logs with
  | [] => None
  | l :: rest =>
      if String.eqb (job_name l) job
      then match last_entry job rest with
           | None => Some (run_datetime l)
           | Some t => Some (Z.max (run_datetime l) t)
           end
      else last_entry job rest
  end.

(** [now] is [datetime.now()], the local clock.  [SchedulerLog(...)] is
    built without a [run_datetime], so the database fills the column in
    with its [CURRENT_TIMESTAMP]; the stamps read back are compared with
    the local clock as they are. *)
Definition log_scheduler_run (job st : string) (det : option string) (hour_delay now : Z)
    (db : DB) : DB :=
  let new_log := mkSchedulerLog job (now - utc_offset db) st det in
  match last_entry job (scheduler_logs db) with
  | None => with_scheduler_logs (fun l => (l ++ [new_log])%list) db
  | Some t =>
      if timedelta_hours hour_delay <=? now - t
      then with_scheduler_logs (fun l => (l ++ [new_log])%list) db
      else db
  end.

(** *** Reconciliation job *)

Definition expired_for (user_id today : Z) (p : PremiumPurchase) : bool :=
  (purchase_user_id p =? user_id) && (expiration_date p <? today).

Definition active_for (user_id today : Z) (p : PremiumPurchase) : bool :=
  (purchase_user_id p =? user_id) && (today <=? expiration_date p).

Definition active_purchases (user_id today : Z) (ps : list PremiumPurchase)
    : list PremiumPurchase :=
  List.filter (active_for user_id today) ps.

(** [sum(...)] *)
Definition sum (l : list Z) : Z := fold_left Z.add l 0.

Definition update_quotas_row (free_requests : Z) (active : list PremiumPurchase)
    (u : User) : User :=
  match active with
  | [] =>
      set_premium_expiration None
        (set_requests free_requests
           (set_status "free" u))
  | _ :: _ =>
      set_targets (sum (map targets_increment active))
        (set_requests (sum (map request_increment active)) u)
  end.

(** One turn of the loop [for user in users]. *)
Definition update_quotas_step (free_requests today : Z) (db : DB) (user_id : Z) : DB :=
  let db1 :=
    with_premium_purchases
      (List.filter (fun p => negb (expired_for user_id today p))) db in
  let active := active_purchases user_id today (premium_purchases db1) in
  with_users (alter (update_quotas_row free_requests active) user_id) db1.

Definition update_user_quotas (free_requests td now : Z) (db : DB) : DB :=
  let today := date now in
  let all_users := (map_to_list (users db)).*1 in
  let db1 := fold_left (update_quotas_step free_requests today) all_users db in
  log_scheduler_run "update_user_quotas" "success"
    (Some "Completed updating user quotas") td now db1.

End Storage.

(** ** The handlers of [message_handler.py] *)

(** What a handler does to the outside world, in order. *)
Inductive Action :=
| Answer (text : string)
| AnswerPhoto (path : string)
| Get (url : string)
| Post (url file_path mode : string).

(** An HTTP exchange: a response with its status code, or an exception
    raised by the client (connection failure, timeout). *)
Inductive Response (A : Type) :=
| Status (code : Z) (body : A)
| Failed.
Arguments Status {A} code body.
Arguments Failed {A}.

(** A photo message together with everything the outside world answers
    while it is handled.
    - [from_user] and [profile]: the id and the names of
      [message.from_user].
    - [now]: the clock during the handler; [file_path]: what [get_file]
      returned; [rand]: the number [generate_filename] draws.
    - [download]: the file download; the body tells whether [save_img]
      can decode the bytes.
    - [worker]: the worker call; the body is [json.loads] of the text
      ([None] when it does not parse).
    - [others]: what other in-flight tasks did to the store right before
      the re-read that precedes the [i]-th output. *)
Record Photo := mkPhoto {
  from_user : Z;
  profile : Profile;
  media_group_id : option string;
  now : Z;
  file_path : string;
  rand : Z;
  download : Response bool;
  worker : Response (option (list string));
  others : nat -> DB -> DB
}.

(** No other task touches the store while this photo is handled. *)
Definition alone (m : Photo) : Prop := forall i db, others m i db = db.

Definition DELAY_BETWEEN_IMAGES : Z := 2.

Record Bot := mkBot {
  database : DB;
  SENT_TIME : gmap Z Z
}.

Definition buttons : list string :=
  [ "Peter the Great"; "Catherine the Great"; "Mona Lisa"; "Count Stroganoff";
    "Emperor of Mankind"; "Adeptus Sororitas"; "Cyberboy"; "Cybergirl";
    "Anime boy"; "Anime girl"; "Ken"; "Barbie" ].

Definition check_limit (user : User) : bool * list Action :=
  if requests_left user <=? 0
  then (false, [Answer "Sorry, you are out of attempts. Try again later"])
  else (true, []).

Definition check_time_limit (user : User) (now n_time : Z) : bool * list Action :=
  if is_premium user then (true, [])
  else if now - last_photo_sent_timestamp user <? timedelta_seconds n_time
  then
    let secs := now - last_photo_sent_timestamp user in
    (false, [Answer ("Sorry, too many requests. Please wait "
                       ++ str (n_time - secs) ++ " more seconds")])
  else (true, []).

Definition prevent_multisending (m : Photo) (sent : gmap Z Z) : bool * gmap Z Z :=
  let dt := now m in
  let last_sent := sent !! from_user m in
  if match media_group_id m with None => true | Some _ => false end
     && match last_sent with
        | None => true
        | Some t => DELAY_BETWEEN_IMAGES <=? dt - t
        end
  then (true, <[from_user m := dt]> sent)
  else (false, sent).

(** The result of running a block: it ran to a [return] (or its end), or
    an exception left it. *)
Inductive Outcome :=
| Returned (db : DB) (out : list Action)
| Raised (db : DB) (out : list Action).

Section Handlers.

Variable PREMIUM_DAYS : Z.
Variable import_time : Z.
(** The bot token and [os.getcwd()]. *)
Variable token : string.
Variable cwd : string.

Definition face_extraction_url : string := "http://localhost:8000/insighter".

(** [generate_filename], with the number [random.randint] settled on. *)
Definition generate_filename (folder : string) (n : Z) : string :=
  cwd ++ "/" ++ "temp/" ++ folder ++ "/" ++ "img_" ++ str n ++ ".png".

(** [target_image_check]: a path (true) or [None] (false). *)
Definition target_image_check (user_id : Z) (user : User) (input_image : string)
    (db : DB) : bool * DB :=
  if is_premium user && flag_on user
  then (true, toggle_receive_target_flag user_id 0
                (update_user_mode user_id input_image db))
  else (false, db).

(** How the loop over the worker's outputs ends. *)
Inductive LoopExit := Completed | OutOfAttempts | Crashed.

(** [for output_path in image_paths]: re-read the user, stop at the first
    re-read that shows no requests left, send the output otherwise.  The
    result carries the last row read, which the code after the loop uses. *)
Fixpoint send_outputs (m : Photo) (i : nat) (image_paths : list string)
    (user : User) (db : DB) : LoopExit * User * DB * list Action :=
  match image_paths with
  | [] => (Completed, user, db, [])
  | output_path :: rest =>
      let db := others m i db in
      match fetch_user_data (from_user m) db with
      | None => (Crashed, user, db, [])
      | Some user =>
          let '(ok, said) := check_limit user in
          if ok then
            let '(ex, user', db', out) := send_outputs m (S i) rest user db in
            (ex, user', db', AnswerPhoto output_path :: out)
          else (OutOfAttempts, user, db, said)
      end
  end.

(** The body of the [try] block of [handle_image]. *)
Definition handle_image_try (m : Photo) (user : User) (input_path : string)
    (db : DB) : Outcome :=
  let user_id := from_user m in
  let file_url :=
    "https://api.telegram.org/file/bot" ++ token ++ "/" ++ file_path m in
  match download m with
  | Failed => Raised db [Get file_url]
  | Status code decodes =>
      if negb (code =? 200)
      then Returned db [Get file_url; Answer "Failed to download image. Please try again"]
      else
        let out := [Get file_url; Answer "Image received. Processing..."] in
        if negb decodes then Raised db out
        else
          let '(is_target, db) := target_image_check user_id user input_path db in
          if is_target
          then Returned db
                 (out ++ [Answer "Target image uploaded, send your source image"])%list
          else
            let out := (out ++ [Post face_extraction_url input_path (mode user)])%list in
            match worker m with
            | Failed => Raised db out
            | Status code body =>
                if negb (code =? 200)
                then Returned db
                       (out ++ [Answer "Failed to process image. Please try again"])%list
                else
                  match body with
                  | None => Raised db out
                  | Some image_paths =>
                      match log_output_image_data import_time user_id (profile m)
                              input_path image_paths (now m) db with
                      | None =>
                          Raised (exist_user_check import_time user_id (profile m) db) out
                      | Some db =>
                          match send_outputs m 0 image_paths user db with
                          | (Crashed, _, db, sent) => Raised db (out ++ sent)%list
                          | (OutOfAttempts, _, db, sent) => Returned db (out ++ sent)%list
                          | (Completed, user, db, sent) =>
                              let n := Z.of_nat (length image_paths) in
                              let db := snd (decrement_requests_left user_id n db) in
                              let limit := Z.max 0 (requests_left user - n) in
                              Returned db
                                (out ++ sent
                                     ++ [Answer ("You have " ++ str limit
                                                   ++ " attempts left")])%list
                          end
                      end
                  end
            end
  end.

Definition handle_image (m : Photo) (db : DB) : DB * list Action :=
  let db := exist_user_check import_time (from_user m) (profile m) db in
  match fetch_user_data (from_user m) db with
  | None => (db, [])
  | Some user =>
      let '(ok, said) := check_limit user in
      if negb ok then (db, said)
      else
        let '(ok, said) := check_time_limit user (now m) 20 in
        if negb ok then (db, said)
        else
          let db := update_photo_timestamp (from_user m) (now m) db in
          let input_path :=
            generate_filename
              (if flag_on user then "target_images" else "original") (rand m) in
          let db :=
            log_input_image_data import_time (from_user m) (profile m) input_path
              (now m) db in
          match handle_image_try m user input_path db with
          | Returned db out => (db, out)
          | Raised db out =>
              (db, (out ++ [Answer "Sorry must have been an error. Try again later."])%list)
          end
  end.

(** The file name that [handle_image] picks for the photo of [user], and
    the store as it stands when the [try] block is entered: user ensured,
    photo timestamp set, input image logged. *)
Definition input_path_of (m : Photo) (user : User) : string :=
  generate_filename (if flag_on user then "target_images" else "original") (rand m).

Definition store_at_try (m : Photo) (user : User) (db : DB) : DB :=
  log_input_image_data import_time (from_user m) (profile m) (input_path_of m user)
    (now m)
    (update_photo_timestamp (from_user m) (now m)
       (exist_user_check import_time (from_user m) (profile m) db)).

(** [image_handler], registered for photo messages. *)
Definition image_handler (m : Photo) (b : Bot) : Bot * list Action :=
  let '(ok, sent) := prevent_multisending m (SENT_TIME b) in
  if ok
  then let '(db, out) := handle_image m (database b) in (mkBot db sent, out)
  else (mkBot (database b) sent, [Answer "Please send one photo at a time."]).

(** [/new_targets] *)
Definition set_receive_flag (user_id : Z) (user : Profile) (db : DB) : DB * list Action :=
  let db := exist_user_check import_time user_id user db in
  match receive_user user_id db with
  | None => (db, [])
  | Some user =>
      if is_premium user
      then (toggle_receive_target_flag user_id 1 db,
            [Answer "Changing set to receiving a new target.
Send target image."])
      else (db, [Answer "You need to be a premium user for that. Use /buy_premium function"])
  end.

(** [/reset_limit].  An exception of [set_requests_left] leaves the
    handler: nothing is answered. *)
Definition reset_images_left (user_id : Z) (user : Profile) (db : DB) : DB * list Action :=
  let db := exist_user_check import_time user_id user db in
  let n := 10 in
  match set_requests_left user_id n db with
  | None => (db, [])
  | Some db =>
      match fetch_user_data user_id db with
      | None => (db, [])
      | Some new_number =>
          (db, [Answer ("You have " ++ str (requests_left new_number) ++ " attempts left")])
      end
  end.

(** [/buy_premium] *)
Definition set_user_to_premium (user_id : Z) (user : Profile) (now : Z) (db : DB)
    : DB * list Action :=
  let db := exist_user_check import_time user_id user db in
  let db := buy_premium PREMIUM_DAYS user_id now db in
  match fetch_user_data user_id db with
  | None => (db, [])
  | Some new_number =>
      (db, [Answer ("Congratulations! You got premium status!
You have " ++ str (requests_left new_number) ++ " attempts left")])
  end.

(** The inline keyboard: [data] is the number on the pressed button. *)
Definition button_callback_handler (user_id data : Z) (db : DB) : DB * list Action :=
  let db := toggle_receive_target_flag user_id 0 db in
  let db := update_user_mode user_id (str data) db in
  match item buttons (data - 1) with
  | None => (db, [])
  | Some name =>
      (db, [Answer ("Target image is " ++ name ++ "
Send me a photo, and I'll process it!")])
  end.

End Handlers.

(** The outputs that a handler sent to the user, in order. *)
Fixpoint photos (out : list Action) : list string :=
  match out with
  | [] => []
  | AnswerPhoto p :: rest => p :: photos rest
  | _ :: rest => photos rest
  end.

(** The handler went as far as fetching the photo: it passed every gate. *)
Definition accepted (out : list Action) : Prop := exists url, In (Get url) out.

(** The last thing a handler did. *)
Definition last_action (out : list Action) : option Action := last out.

(** The two "try again" replies of [handle_image]. *)
Definition retry_replies : list Action :=
  [ Answer "Failed to process image. Please try again";
    Answer "Sorry must have been an error. Try again later." ].

(** The worker call fails: the request raises (no connection, timeout) or
    the response has a status other than 200. *)
Definition worker_fails (m : Photo) : Prop :=
  worker m = Failed \/ exists code body, worker m = Status code body /\ code <> 200.

(** ** What reaches the bot *)

Inductive Command :=
| PhotoMessage (m : Photo)
| NewTargets (user_id : Z) (user : Profile)
| BuyPremium (user_id : Z) (user : Profile) (now : Z)
| ResetLimit (user_id : Z) (user : Profile)
| Button (user_id data : Z)
| QuotaJob (free_requests td now : Z).

Definition step (PREMIUM_DAYS import_time : Z) (token cwd : string)
    (b : Bot) (c : Command) : Bot :=
  match c with
  | PhotoMessage m => fst (image_handler import_time token cwd m b)
  | NewTargets user_id user =>
      mkBot (fst (set_receive_flag import_time user_id user (database b))) (SENT_TIME b)
  | BuyPremium user_id user now =>
      mkBot (fst (set_user_to_premium PREMIUM_DAYS import_time user_id user now
                    (database b)))
            (SENT_TIME b)
  | ResetLimit user_id user =>
      mkBot (fst (reset_images_left import_time user_id user (database b))) (SENT_TIME b)
  | Button user_id data =>
      mkBot (fst (button_callback_handler user_id data (database b))) (SENT_TIME b)
  | QuotaJob free_requests td now =>
      mkBot (update_user_quotas free_requests td now (database b)) (SENT_TIME b)
  end.

Definition run (PREMIUM_DAYS import_time : Z) (token cwd : string)
    (cs : list Command) (b : Bot) : Bot :=
  fold_left (step PREMIUM_DAYS import_time token cwd) cs b.

Definition fresh_bot : Bot := mkBot empty_db ∅.

(** A bot whose store is [db] and which has let no photo through yet. *)
Definition started_on (db : DB) : Bot := mkBot db ∅.

(** ** Sequences of ledger operations *)

(** An operation that raises is rolled back and leaves the store as it
    was; the sequence goes on with the next one. *)

Inductive LedgerOp :=
| CreateUser (user_id : Z) (username first_name last_name : string)
| Consume (user_id n : Z)
| ConsumeTarget (user_id n : Z)
| GrantPremium (user_id now : Z)
| ResetQuota (user_id number : Z)
| Reconcile (free_requests td now : Z).

Definition run_op (PREMIUM_DAYS import_time : Z) (db : DB) (o : LedgerOp) : DB :=
  match o with
  | CreateUser user_id username first_name last_name =>
      insert_user import_time user_id username first_name last_name db
  | Consume user_id n => snd (decrement_requests_left user_id n db)
  | ConsumeTarget user_id n => snd (decrement_targets_left user_id n db)
  | GrantPremium user_id now => buy_premium PREMIUM_DAYS user_id now db
  | ResetQuota user_id number =>
      match set_requests_left user_id number db with
      | Some db' => db'
      | None => db
      end
  | Reconcile free_requests td now => update_user_quotas free_requests td now db
  end.

Definition run_ops (PREMIUM_DAYS import_time : Z) (ops : list LedgerOp) (db : DB) : DB :=
  fold_left (run_op PREMIUM_DAYS import_time) ops db.

(** The amounts handed to the operations are not negative. *)
Definition nonneg_args (o : LedgerOp) : Prop :=
  match o with
  | Consume _ n | ConsumeTarget _ n => 0 <= n
  | ResetQuota _ number => 0 <= number
  | Reconcile free_requests _ _ => 0 <= free_requests
  | CreateUser _ _ _ _ | GrantPremium _ _ => True
  end.

(** No counter and no purchase increment in the store is negative. *)
Definition ledger_ok (db : DB) : Prop :=
  (forall user_id u,
      users db !! user_id = Some u -> 0 <= requests_left u /\ 0 <= targets_left u)
  /\ Forall (fun p => 0 <= request_increment p /\ 0 <= targets_increment p)
       (premium_purchases db).

(** ** Sample stores *)

(** A store with the single user 1, a fresh free account. *)
Definition one_user_db : DB :=
  mkDB {[ 1 := mkUser "1" 0 "free" 10 0 0 None ]} {[ 1 := mkNames "ann" "Ann" "" ]}
    [] [] [] 0.

(** A premium user (id 1) holding one purchase that runs out on day 40,
    with 5 requests and 4 target credits left and the target flag raised,
    next to a free user (id 2) who has used 7 of the 10 free requests.  The
    job was last logged at second 1000.  The host runs on UTC. *)
Definition sample_db : DB :=
  mkDB
    {[ 1 := mkUser "1" 1 "premium" 5 4 0 (Some 40);
       2 := mkUser "3" 0 "free" 3 0 0 None ]}
    {[ 1 := mkNames "ann" "Ann" ""; 2 := mkNames "" "Bob" "Lee" ]}
    [ mkPremiumPurchase 1 10 40 10 100 ]
    []
    [ mkSchedulerLog "update_user_quotas" 1000 "success" None ]
    0.

(** The same store on a host whose local clock is three hours ahead of
    UTC. *)
Definition sample_db_utc3 : DB :=
  mkDB (users sample_db) (user_names sample_db) (premium_purchases sample_db)
    (image_names sample_db) (scheduler_logs sample_db) (timedelta_hours 3).

(** The run record that the job asks [log_scheduler_run] to write, with
    the stamp that the database puts on it. *)
Definition quota_run_record (stamp : Z) : SchedulerLog :=
  mkSchedulerLog "update_user_quotas" stamp "success"
    (Some "Completed updating user quotas").

(** User 1 signs up, buys premium, burns more requests and target credits
    than granted, asks for a reset, and is swept by the job 100 days
    later. *)
Definition sample_ops : list LedgerOp :=
  [ CreateUser 1 "ann" "Ann" ""; GrantPremium 1 0; Consume 1 250; ConsumeTarget 1 20;
    ResetQuota 1 10; Reconcile 10 24 (timedelta_days 100) ].

(** ** Sample photo messages *)

Definition nobody_else : nat -> DB -> DB := fun _ db => db.

(** A sender without a username, whose first name has a space in it. *)
Definition a_sender : Profile := mkProfile None (Some "Mary Ann") (Some "Lee").

(** A single photo whose download succeeds, with the worker's answer. *)
Definition single_photo (user_id now : Z) (answer : Response (option (list string)))
    : Photo :=
  mkPhoto user_id a_sender None now "photos/file_7.jpg" 4242 (Status 200 true) answer
    nobody_else.

(** One photo of an album. *)
Definition album_photo (user_id now : Z) : Photo :=
  mkPhoto user_id a_sender (Some "album-1") now "photos/file_8.jpg" 4243 (Status 200 true)
    (Status 200 (Some [])) nobody_else.

Definition three_outputs : list string :=
  [ "temp/result/img_1.png"; "temp/result/img_2.png"; "temp/result/img_3.png" ].

(** A premium user (id 7) with 40 requests and 9 target credits left who
    asked to upload a new target. *)
Definition awaiting_target_db : DB :=
  mkDB {[ 7 := mkUser "3" 1 "premium" 40 9 0 (Some 30) ]}
    {[ 7 := mkNames "" "Mary_Ann" "Lee" ]}
    [ mkPremiumPurchase 7 0 30 10 100 ] [] [] 0.

(** A free user (id 1) with a single request left. *)
Definition last_request_db : DB :=
  mkDB {[ 1 := mkUser "3" 0 "free" 1 0 0 None ]} {[ 1 := mkNames "ann" "Ann" "" ]}
    [] [] [] 0.

(** The user with one request left sends a photo for which the worker
    returns three outputs. *)
Definition last_request_run : DB * list Action :=
  handle_image 0 "TOKEN" "/srv/bot"
    (single_photo 1 500 (Status 200 (Some three_outputs))) last_request_db.


(** ** Further operations of [db_requests.py] *)

(** [buy_premium] called once for each of the instants [ts], in order. *)
Definition buy_many (PREMIUM_DAYS user_id : Z) (ts : list Z) (db : DB) : DB :=
  fold_left (fun d t => buy_premium PREMIUM_DAYS user_id t d) ts db.

(** ** Stores along the photo handler *)

(** The name columns that [exist_user_check] writes for a sender. *)
Definition names_of (user : Profile) : Names :=
  mkNames (replace_space (default "" (tg_username user)))
          (replace_space (default "" (tg_first_name user)))
          (replace_space (default "" (tg_last_name user))).

(** The store that an outcome of the [try] block leaves behind, and what
    the block did until then. *)
Definition store_of (o : Outcome) : DB :=
  match o with
  | Returned db _ => db
  | Raised db _ => db
  end.

Definition actions_of (o : Outcome) : list Action :=
  match o with
  | Returned _ out => out
  | Raised _ out => out
  end.

(** Nothing but the row of [user_id] differs between [db] and [db'], and
    in that row the tier, the target credits and the expiration are the
    same and the requests have not grown; purchases and run-log are the
    same. *)
Definition only_requests_spent (user_id : Z) (db db' : DB) : Prop :=
  premium_purchases db' = premium_purchases db
  /\ scheduler_logs db' = scheduler_logs db
  /\ (forall j, j <> user_id -> users db' !! j = users db !! j)
  /\ (forall u,
        users db !! user_id = Some u ->
        exists u',
          users db' !! user_id = Some u'
          /\ status u' = status u
          /\ targets_left u' = targets_left u
          /\ premium_expiration u' = premium_expiration u
          /\ requests_left u' <= requests_left u).

(** The store as the loop of [handle_image] re-reads it before output
    [i + k], when it stood at [db] before the re-read for output [i]. *)
Fixpoint store_reread (m : Photo) (i k : nat) (db : DB) : DB :=
  match k with
  | O => others m i db
  | S k' => store_reread m (S i) k' (others m i db)
  end.

(** The store with which [handle_image] enters the loop over the outputs
    [outs]: the image row of this photo holds them. *)
Definition store_at_loop (import_time : Z) (cwd : string) (m : Photo) (user : User)
    (outs : list string) (db : DB) : DB :=
  with_image_names
    (map (update_image_row (from_user m) (input_path_of cwd m user) outs (now m)))
    (store_at_try import_time cwd m user db).

(** Another task takes [n] requests off [user_id] right before the
    re-read for output [at_output], and nothing happens otherwise. *)
Definition rival (user_id n : Z) (at_output : nat) : nat -> DB -> DB :=
  fun i db => if Nat.eqb i at_output then snd (decrement_requests_left user_id n db) else db.

(** ** Housekeeping of [db_requests.py] *)

(** [clear_output_images_by_user_id]: deletes the image rows of the user
    that are older than [hour_delay] hours. *)
Definition outdated_for (user_id cutoff_time : Z) (e : ImageName) : bool :=
  (image_user_id e =? user_id) && (image_timestamp e <? cutoff_time).

Definition clear_output_images_by_user_id (user_id hour_delay now : Z) (db : DB) : DB :=
  let cutoff_time := now - timedelta_hours hour_delay in
  with_image_names (List.filter (fun e => negb (outdated_for user_id cutoff_time e))) db.

(** [clear_outdated_images]: the same for every user of the table. *)
Definition clear_outdated_images (hour_delay now : Z) (db : DB) : DB :=
  let user_ids := (map_to_list (users db)).*1 in
  fold_left (fun d user_id => clear_output_images_by_user_id user_id hour_delay now d)
    user_ids db.

Definition remove_expired_premium_purchases (user_id now : Z) (db : DB) : DB :=
  with_premium_purchases
    (List.filter (fun p => negb (expired_for user_id (date now) p))) db.

(** [add_premium_purchase_for_premium_users]: one purchase for every user
    whose status is premium; the block commits when it is left. *)
Definition add_premium_purchase_for_premium_users (PREMIUM_DAYS now : Z) (db : DB) : DB :=
  let premium_users :=
    List.filter (fun ku : Z * User => is_premium (snd ku)) (map_to_list (users db)) in
  fold_left
    (fun d (ku : Z * User) =>
       let purchase_date := now in
       let expiration_date := purchase_date + timedelta_days PREMIUM_DAYS in
       let new_purchase :=
         mkPremiumPurchase (fst ku) (date purchase_date) (date expiration_date) 10 100 in
       with_premium_purchases (fun ps => (ps ++ [new_purchase])%list) d)
    premium_users db.

(** ** Counting outputs *)

(** [s.split(sep)] for a separator of one character. *)
Fixpoint split_on (sep : Ascii.ascii) (s : string) : list string :=
  match s with
  | EmptyString => [EmptyString]
  | String a rest =>
      if Ascii.eqb a sep then EmptyString :: split_on sep rest
      else match split_on sep rest with
           | [] => [String a EmptyString]
           | piece :: pieces => String a piece :: pieces
           end
  end.

(** The separator of the stored output names. *)
Definition comma : Ascii.ascii := Ascii.ascii_of_nat 44.

(** The number of outputs that [format_userdata_output] reports for an
    image row:
    [len(names.split(',')) if names else 0]. *)
Definition output_count (names : option string) : nat :=
  match names with
  | None => 0%nat
  | Some s => if String.eqb s "" then 0%nat else length (split_on comma s)
  end.

(** ** More sample stores *)

(** The sample store with three image rows: an old one and a recent one
    of user 2, and an old one that carries an id missing from the users
    table. *)
Definition sample_images_db : DB :=
  with_image_names
    (fun _ => [ mkImageName 2 "temp/original/img_1.png" None 100;
                mkImageName 2 "temp/original/img_2.png" None 90000;
                mkImageName 5 "temp/original/img_3.png" None 100 ])
    sample_db.

(** * Properties *)

(** ** Rows and tables *)

Lemma users_with_users f db : users (with_users f db) = f (users db).
Proof. reflexivity. Qed.

Lemma lookup_user_alter (f : User -> User) (db : DB) (i j : Z) :
  users (with_users (alter f i) db) !! j
  = if decide (i = j) then f <$> users db !! i else users db !! j.
Proof. simpl. apply lookup_alter. Qed.

Lemma lookup_user_alter_eq (f : User -> User) (db : DB) (i : Z) (u : User) :
  users db !! i = Some u -> users (with_users (alter f i) db) !! i = Some (f u).
Proof. intros H. simpl. rewrite lookup_alter_eq, H. reflexivity. Qed.

Lemma lookup_user_alter_ne (f : User -> User) (db : DB) (i j : Z) :
  i <> j -> users (with_users (alter f i) db) !! j = users db !! j.
Proof. intros H. simpl. apply lookup_alter_ne, H. Qed.

(** ** Signing up *)

Section SignUp.

Variable import_time : Z.

Local Abbreviation ensure_user := (exist_user_check import_time).

(** Every column of a row but the names is left alone when the sender is
    known. *)
Lemma exist_user_check_users_known (user_id : Z) (user : Profile) (db : DB) (u : User) :
  users db !! user_id = Some u -> users (ensure_user user_id user db) = users db.
Proof. intros H. unfold exist_user_check, insert_user. rewrite H. reflexivity. Qed.

Lemma exist_user_check_lookup (user_id : Z) (user : Profile) (db : DB) :
  users (ensure_user user_id user db) !! user_id
  = Some (default (new_user import_time "1") (users db !! user_id)).
Proof.
  unfold exist_user_check, insert_user.
  destruct (users db !! user_id) as [u|] eqn:E; cbn; [exact E|].
  apply lookup_insert_eq.
Qed.

Lemma exist_user_check_other (user_id j : Z) (user : Profile) (db : DB) :
  j <> user_id -> users (ensure_user user_id user db) !! j = users db !! j.
Proof.
  intros H. unfold exist_user_check, insert_user.
  destruct (users db !! user_id); [reflexivity|].
  cbn. apply lookup_insert_ne. congruence.
Qed.

Lemma exist_user_check_names (user_id : Z) (user : Profile) (db : DB) :
  user_names (ensure_user user_id user db) = <[user_id := names_of user]> (user_names db).
Proof.
  unfold exist_user_check, insert_user. destruct (users db !! user_id); reflexivity.
Qed.

Lemma exist_user_check_rest (user_id : Z) (user : Profile) (db : DB) :
  premium_purchases (ensure_user user_id user db) = premium_purchases db
  /\ image_names (ensure_user user_id user db) = image_names db
  /\ scheduler_logs (ensure_user user_id user db) = scheduler_logs db
  /\ utc_offset (ensure_user user_id user db) = utc_offset db.
Proof.
  unfold exist_user_check, insert_user. destruct (users db !! user_id); repeat split.
Qed.

(** Once the names of the sender are the stored ones, the check changes
    nothing. *)
Lemma exist_user_check_settled (user_id : Z) (user : Profile) (db : DB) (u : User) :
  users db !! user_id = Some u ->
  user_names db !! user_id = Some (names_of user) ->
  ensure_user user_id user db = db.
Proof.
  intros Hu Hn. unfold exist_user_check, insert_user. rewrite Hu.
  destruct db as [us ns ps ims logs off]. unfold with_user_names. cbn in *.
  f_equal. apply insert_id, Hn.
Qed.

End SignUp.

(** ** The quota ledger *)

Lemma decrement_requests_row_spec n u :
  0 <= n ->
  requests_left (decrement_requests_row n u) = requests_left u - Z.min n (requests_left u)
  /\ 0 <= requests_left (decrement_requests_row n u).
Proof.
  intros Hn. unfold decrement_requests_row.
  destruct (0 <? requests_left u) eqn:E; simpl.
  - apply Z.ltb_lt in E. lia.
  - apply Z.ltb_ge in E. lia.
Qed.

(** C3, as the code has it: for an existing user and [n >= 0],
    [decrement_requests_left] takes [min n requests_left] off
    [requests_left] and never leaves it negative; the coroutine itself
    yields [None], and the count that the caller announces,
    [max 0 (requests_left - n)], is the stored one whenever the user had
    requests left. *)
Theorem decrement_requests_left_spec (db : DB) (user_id n : Z) (u : User) :
  users db !! user_id = Some u ->
  0 <= n ->
  fst (decrement_requests_left user_id n db) = None
  /\ exists u',
       users (snd (decrement_requests_left user_id n db)) !! user_id = Some u'
       /\ requests_left u' = requests_left u - Z.min n (requests_left u)
       /\ 0 <= requests_left u'
       /\ (0 < requests_left u -> requests_left u' = Z.max 0 (requests_left u - n)).
Proof.
  intros Hu Hn. split; [reflexivity|].
  exists (decrement_requests_row n u).
  destruct (decrement_requests_row_spec n u Hn) as [Hdec Hpos].
  repeat split; try assumption.
  - unfold decrement_requests_left. cbn [snd].
    apply lookup_user_alter_eq, Hu.
  - intros Hr. rewrite Hdec. lia.
Qed.

Lemma decrement_requests_left_spec_witness :
  fst (decrement_requests_left 1 3 one_user_db) = None
  /\ exists u',
       users (snd (decrement_requests_left 1 3 one_user_db)) !! 1 = Some u'
       /\ requests_left u' = 10 - Z.min 3 10
       /\ 0 <= requests_left u'
       /\ (0 < 10 -> requests_left u' = Z.max 0 (10 - 3)).
Proof.
  apply (decrement_requests_left_spec one_user_db 1 3 (mkUser "1" 0 "free" 10 0 0 None)).
  - reflexivity.
  - lia.
Defined.

(** C3 as the specification words it fails on its last part: taking 3 of
    the 10 requests of user 1 leaves 7 in the store, and the value of the
    call is [None], not that count. *)
Lemma decrement_requests_left_returns_no_count :
  (exists u',
      users (snd (decrement_requests_left 1 3 one_user_db)) !! 1 = Some u'
      /\ requests_left u' = 7)
  /\ fst (decrement_requests_left 1 3 one_user_db) <> Some 7.
Proof.
  split.
  - eexists. split; [reflexivity | reflexivity].
  - discriminate.
Qed.

(** ** The reconciliation job *)

Section Reconciliation.

Variables free_requests today : Z.

(** A purchase that the sweep deletes is active for nobody. *)
Lemma active_after_delete (j k : Z) (ps : list PremiumPurchase) :
  active_purchases j today (List.filter (fun p => negb (expired_for k today p)) ps)
  = active_purchases j today ps.
Proof.
  unfold active_purchases.
  induction ps as [|p ps IH]; [reflexivity|].
  cbn [List.filter].
  destruct (expired_for k today p) eqn:Ex; cbn [negb List.filter].
  - assert (active_for j today p = false) as ->.
    { unfold expired_for in Ex. unfold active_for.
      apply andb_true_iff in Ex as [_ Ex]. apply Z.ltb_lt in Ex.
      apply andb_false_iff. right. apply Z.leb_gt. exact Ex. }
    exact IH.
  - destruct (active_for j today p); [f_equal|]; exact IH.
Qed.

Lemma update_quotas_step_active (db : DB) (k j : Z) :
  active_purchases j today (premium_purchases (update_quotas_step free_requests today db k))
  = active_purchases j today (premium_purchases db).
Proof.
  unfold update_quotas_step.
  cbn [with_users with_premium_purchases premium_purchases].
  apply active_after_delete.
Qed.

Lemma update_quotas_step_users (db : DB) (k j : Z) :
  users (update_quotas_step free_requests today db k) !! j
  = if decide (k = j)
    then update_quotas_row free_requests
           (active_purchases k today (premium_purchases db)) <$> users db !! k
    else users db !! j.
Proof.
  unfold update_quotas_step. rewrite lookup_user_alter.
  cbn [with_premium_purchases premium_purchases users].
  rewrite active_after_delete. reflexivity.
Qed.

Lemma update_quotas_step_logs (db : DB) (k : Z) :
  scheduler_logs (update_quotas_step free_requests today db k) = scheduler_logs db.
Proof. reflexivity. Qed.

Lemma update_quotas_loop_active (ks : list Z) (db : DB) (j : Z) :
  active_purchases j today
    (premium_purchases (fold_left (update_quotas_step free_requests today) ks db))
  = active_purchases j today (premium_purchases db).
Proof.
  revert db. induction ks as [|k ks IH]; intros db; [reflexivity|].
  cbn [fold_left]. rewrite IH. apply update_quotas_step_active.
Qed.

Lemma update_quotas_loop_logs (ks : list Z) (db : DB) :
  scheduler_logs (fold_left (update_quotas_step free_requests today) ks db)
  = scheduler_logs db.
Proof.
  revert db. induction ks as [|k ks IH]; intros db; [reflexivity|].
  cbn [fold_left]. rewrite IH. reflexivity.
Qed.

(** The loop visits every listed user once and rewrites that row from the
    purchases that were active when the sweep began. *)
Lemma update_quotas_loop_users (ks : list Z) (db : DB) (j : Z) :
  NoDup ks ->
  users (fold_left (update_quotas_step free_requests today) ks db) !! j
  = if decide (j ∈ ks)
    then update_quotas_row free_requests
           (active_purchases j today (premium_purchases db)) <$> users db !! j
    else users db !! j.
Proof.
  intros Hnd. revert db. induction Hnd as [|k ks Hk Hnd IH]; intros db.
  - cbn. destruct (decide (j ∈ [])) as [Hin|_]; [|reflexivity].
    apply elem_of_nil in Hin. destruct Hin.
  - cbn [fold_left]. rewrite IH, update_quotas_step_active, update_quotas_step_users.
    destruct (decide (k = j)) as [->|Hne].
    + destruct (decide (j ∈ ks)) as [Hin|_]; [contradiction|].
      destruct (decide (j ∈ j :: ks)) as [_|Hout]; [reflexivity|].
      exfalso. apply Hout. left.
    + destruct (decide (j ∈ ks)) as [Hin|Hout];
        destruct (decide (j ∈ k :: ks)) as [Hin'|Hout']; try reflexivity.
      * exfalso. apply Hout'. right. exact Hin.
      * exfalso. apply elem_of_cons in Hin' as [->|Hin']; [apply Hne; reflexivity|].
        apply Hout, Hin'.
Qed.

End Reconciliation.

Lemma log_scheduler_run_users job st det hour_delay now db :
  users (log_scheduler_run job st det hour_delay now db) = users db.
Proof.
  unfold log_scheduler_run.
  destruct (last_entry job (scheduler_logs db)) as [t|]; [|reflexivity].
  destruct (timedelta_hours hour_delay <=? now - t); reflexivity.
Qed.

Lemma log_scheduler_run_logs job st det hour_delay now db :
  scheduler_logs (log_scheduler_run job st det hour_delay now db)
  = match last_entry job (scheduler_logs db) with
    | None =>
        (scheduler_logs db ++ [mkSchedulerLog job (now - utc_offset db) st det])%list
    | Some t =>
        if timedelta_hours hour_delay <=? now - t
        then (scheduler_logs db ++ [mkSchedulerLog job (now - utc_offset db) st det])%list
        else scheduler_logs db
    end.
Proof.
  unfold log_scheduler_run.
  destruct (last_entry job (scheduler_logs db)) as [t|]; [|reflexivity].
  destruct (timedelta_hours hour_delay <=? now - t); reflexivity.
Qed.

Lemma log_scheduler_run_rest job st det hour_delay now db :
  premium_purchases (log_scheduler_run job st det hour_delay now db) = premium_purchases db
  /\ image_names (log_scheduler_run job st det hour_delay now db) = image_names db
  /\ utc_offset (log_scheduler_run job st det hour_delay now db) = utc_offset db.
Proof.
  unfold log_scheduler_run.
  destruct (last_entry job (scheduler_logs db)) as [t|]; [|repeat split].
  destruct (timedelta_hours hour_delay <=? now - t); repeat split.
Qed.

Lemma update_quotas_loop_offset free_requests today (ks : list Z) (db : DB) :
  utc_offset (fold_left (update_quotas_step free_requests today) ks db) = utc_offset db.
Proof.
  revert db. induction ks as [|k ks IH]; intros db; [reflexivity|].
  cbn [fold_left]. rewrite IH. reflexivity.
Qed.

(** What one sweep does to the [users] table. *)
Lemma update_user_quotas_users (free_requests td now : Z) (db : DB) (user_id : Z) :
  users (update_user_quotas free_requests td now db) !! user_id
  = update_quotas_row free_requests
      (active_purchases user_id (date now) (premium_purchases db))
    <$> users db !! user_id.
Proof.
  unfold update_user_quotas.
  rewrite log_scheduler_run_users.
  rewrite update_quotas_loop_users by apply NoDup_fst_map_to_list.
  destruct (decide (user_id ∈ (map_to_list (users db)).*1)) as [_|Hout]; [reflexivity|].
  destruct (users db !! user_id) as [u|] eqn:Hu; [|reflexivity].
  exfalso. apply Hout. apply list_elem_of_fmap. exists (user_id, u).
  split; [reflexivity|]. apply elem_of_map_to_list, Hu.
Qed.

Lemma update_user_quotas_lookup (free_requests td now : Z) (db : DB) (user_id : Z) (u : User) :
  users db !! user_id = Some u ->
  users (update_user_quotas free_requests td now db) !! user_id
  = Some (update_quotas_row free_requests
            (active_purchases user_id (date now) (premium_purchases db)) u).
Proof.
  intros Hu. rewrite update_user_quotas_users, Hu. reflexivity.
Qed.

(** C4: for each known user the sweep takes the purchases of that user
    whose [expiration_date] is today or later; with none of them the user
    becomes free with the free quota and no [premium_expiration], whatever
    the tier was; otherwise [requests_left] and [targets_left] become the
    sums of the increments and the tier is left as it is, so a premium
    user remains premium. *)
Theorem update_user_quotas_recomputes
    (free_requests td now : Z) (db : DB) (user_id : Z) (u : User) :
  users db !! user_id = Some u ->
  let active := active_purchases user_id (date now) (premium_purchases db) in
  (forall p, In p active <->
             In p (premium_purchases db)
             /\ purchase_user_id p = user_id /\ date now <= expiration_date p)
  /\ exists u',
       users (update_user_quotas free_requests td now db) !! user_id = Some u'
       /\ (active = [] ->
           status u' = "free" /\ requests_left u' = free_requests
           /\ premium_expiration u' = None)
       /\ (active <> [] ->
           requests_left u' = sum (map request_increment active)
           /\ targets_left u' = sum (map targets_increment active)
           /\ status u' = status u
           /\ (status u = "premium" -> status u' = "premium")).
Proof.
  intros Hu active. split.
  - intros p. unfold active, active_purchases, active_for.
    rewrite filter_In, andb_true_iff, Z.eqb_eq, Z.leb_le. tauto.
  - eexists. split; [apply update_user_quotas_lookup, Hu|].
    fold active. split.
    + intros ->. cbn. auto.
    + intros Hne. destruct active as [|p ps]; [congruence|].
      cbn [update_quotas_row]. cbn. auto.
Qed.

Lemma update_user_quotas_recomputes_witness :
  users sample_db !! 1 = Some (mkUser "1" 1 "premium" 5 4 0 (Some 40))
  /\ exists u',
       users (update_user_quotas 10 24 (timedelta_days 20) sample_db) !! 1 = Some u'
       /\ requests_left u' = 100 /\ targets_left u' = 10 /\ status u' = "premium".
Proof.
  split; [reflexivity|].
  destruct (update_user_quotas_recomputes 10 24 (timedelta_days 20) sample_db 1
              (mkUser "1" 1 "premium" 5 4 0 (Some 40)) eq_refl)
    as [_ (u' & Hu' & _ & Hact)].
  exists u'. split; [exact Hu'|].
  destruct Hact as (Hr & Ht & Hs & _); [discriminate|].
  rewrite Hr, Ht, Hs. repeat split; reflexivity.
Defined.

(** C10: when the sweep finds no valid purchase for a user it sets the
    status to free, [requests_left] to the free quota and clears
    [premium_expiration]; [targets_left] (like the mode, the target flag
    and the photo timestamp) keeps the value it had. *)
Theorem update_user_quotas_revert_keeps_targets
    (free_requests td now : Z) (db : DB) (user_id : Z) (u : User) :
  users db !! user_id = Some u ->
  active_purchases user_id (date now) (premium_purchases db) = [] ->
  exists u',
    users (update_user_quotas free_requests td now db) !! user_id = Some u'
    /\ status u' = "free"
    /\ requests_left u' = free_requests
    /\ premium_expiration u' = None
    /\ targets_left u' = targets_left u
    /\ mode u' = mode u
    /\ receive_target_flag u' = receive_target_flag u
    /\ last_photo_sent_timestamp u' = last_photo_sent_timestamp u.
Proof.
  intros Hu Hact. eexists. split; [apply update_user_quotas_lookup, Hu|].
  rewrite Hact. cbn. repeat split; reflexivity.
Qed.

Lemma update_user_quotas_revert_keeps_targets_witness :
  exists u',
    users (update_user_quotas 10 24 (timedelta_days 41) sample_db) !! 1 = Some u'
    /\ status u' = "free"
    /\ requests_left u' = 10
    /\ premium_expiration u' = None
    /\ targets_left u' = 4.
Proof.
  destruct (update_user_quotas_revert_keeps_targets 10 24 (timedelta_days 41) sample_db 1
              (mkUser "1" 1 "premium" 5 4 0 (Some 40))
              eq_refl eq_refl)
    as (u' & Hu' & Hs & Hr & He & Ht & _).
  exists u'. repeat split; assumption.
Defined.

(** C9, as the code has it: the sweep itself is never skipped, every known
    user is recomputed on every call; the run-log is consulted afterwards
    and decides only whether a record is written.  The record carries the
    stamp of the database, the local clock less the offset from UTC; it
    is written when the job has no record yet or the local clock reads
    [td] hours or more past the newest stamp stored for the job, and not
    otherwise; a call never writes more than one. *)
Theorem update_user_quotas_sweeps_then_logs (free_requests td now : Z) (db : DB) :
  let db' := update_user_quotas free_requests td now db in
  let record := quota_run_record (now - utc_offset db) in
  (forall user_id u,
      users db !! user_id = Some u ->
      users db' !! user_id
      = Some (update_quotas_row free_requests
                (active_purchases user_id (date now) (premium_purchases db)) u))
  /\ (last_entry "update_user_quotas" (scheduler_logs db) = None ->
      scheduler_logs db' = (scheduler_logs db ++ [record])%list)
  /\ (forall t,
        last_entry "update_user_quotas" (scheduler_logs db) = Some t ->
        timedelta_hours td <= now - t ->
        scheduler_logs db' = (scheduler_logs db ++ [record])%list)
  /\ (forall t,
        last_entry "update_user_quotas" (scheduler_logs db) = Some t ->
        now - t < timedelta_hours td ->
        scheduler_logs db' = scheduler_logs db)
  /\ (scheduler_logs db' = scheduler_logs db
      \/ scheduler_logs db' = (scheduler_logs db ++ [record])%list).
Proof.
  intros db' record. split; [intros user_id u Hu; apply update_user_quotas_lookup, Hu|].
  unfold db', record, quota_run_record, update_user_quotas.
  rewrite log_scheduler_run_logs, update_quotas_loop_logs, update_quotas_loop_offset.
  repeat split.
  - intros ->. reflexivity.
  - intros t -> Ht. apply Z.leb_le in Ht. rewrite Ht. reflexivity.
  - intros t -> Ht. apply Z.leb_gt in Ht. rewrite Ht. reflexivity.
  - destruct (last_entry _ _) as [t|]; [|right; reflexivity].
    destruct (_ <=? _); [right | left]; reflexivity.
Qed.

Lemma update_user_quotas_sweeps_then_logs_witness :
  users (update_user_quotas 10 24 1001 sample_db) !! 2
  = Some (mkUser "3" 0 "free" 10 0 0 None)
  /\ scheduler_logs (update_user_quotas 10 24 1001 sample_db)
     = scheduler_logs sample_db
  /\ scheduler_logs (update_user_quotas 10 24 (timedelta_hours 30) sample_db_utc3)
     = (scheduler_logs sample_db_utc3
          ++ [quota_run_record (timedelta_hours 27)])%list.
Proof.
  destruct (update_user_quotas_sweeps_then_logs 10 24 1001 sample_db)
    as (Hsweep & _ & _ & Hskip & _).
  destruct (update_user_quotas_sweeps_then_logs 10 24 (timedelta_hours 30) sample_db_utc3)
    as (_ & _ & Hwrite & _).
  split; [|split].
  - rewrite (Hsweep 2 (mkUser "3" 0 "free" 3 0 0 None) eq_refl). reflexivity.
  - apply (Hskip 1000); [reflexivity | reflexivity].
  - apply (Hwrite 1000); [reflexivity | vm_compute; discriminate].
Defined.

(** C9 as the specification words it fails: one second after a logged run
    (the interval is 24 hours) the job still rewrites user 2, from 3
    requests left to 10, and this sweep writes no run record at all. *)
Lemma update_user_quotas_never_skips :
  last_entry "update_user_quotas" (scheduler_logs sample_db) = Some 1000
  /\ 1001 - 1000 < timedelta_hours 24
  /\ users (update_user_quotas 10 24 1001 sample_db) <> users sample_db
  /\ length (scheduler_logs (update_user_quotas 10 24 1001 sample_db))
     = length (scheduler_logs sample_db).
Proof.
  split; [reflexivity|]. split; [reflexivity|]. split; [|reflexivity].
  intros Heq.
  assert (users (update_user_quotas 10 24 1001 sample_db) !! 2
          = users sample_db !! 2) as H by (rewrite Heq; reflexivity).
  vm_compute in H. discriminate H.
Qed.

(** ** Counters never go negative *)

Lemma Forall_list_filter {A : Type} (P : A -> Prop) (f : A -> bool) (l : list A) :
  Forall P l -> Forall P (List.filter f l).
Proof.
  induction 1 as [|x l Hx Hl IH]; cbn; [constructor|].
  destruct (f x); [constructor|]; assumption.
Qed.

Lemma fold_add_nonneg (l : list Z) (acc : Z) :
  Forall (fun x => 0 <= x) l -> 0 <= acc -> 0 <= fold_left Z.add l acc.
Proof.
  intros Hl. revert acc. induction Hl as [|x l Hx Hl IH]; intros acc Hacc; cbn.
  - exact Hacc.
  - apply IH. lia.
Qed.

Lemma sum_increments_nonneg (ps : list PremiumPurchase) :
  Forall (fun p => 0 <= request_increment p /\ 0 <= targets_increment p) ps ->
  0 <= sum (map request_increment ps) /\ 0 <= sum (map targets_increment ps).
Proof.
  intros H. unfold sum. split; apply fold_add_nonneg; try lia;
    induction H as [|p ps [Hr Ht] _ IH]; cbn; constructor; assumption.
Qed.

Lemma update_quotas_loop_purchases (P : PremiumPurchase -> Prop) free_requests today ks db :
  Forall P (premium_purchases db) ->
  Forall P (premium_purchases (fold_left (update_quotas_step free_requests today) ks db)).
Proof.
  revert db. induction ks as [|k ks IH]; intros db H; [exact H|].
  cbn [fold_left]. apply IH. unfold update_quotas_step.
  cbn [with_users with_premium_purchases premium_purchases].
  apply Forall_list_filter, H.
Qed.

Lemma update_user_quotas_purchases (P : PremiumPurchase -> Prop) free_requests td now db :
  Forall P (premium_purchases db) ->
  Forall P (premium_purchases (update_user_quotas free_requests td now db)).
Proof.
  intros H. unfold update_user_quotas, log_scheduler_run.
  set (db1 := fold_left _ _ _).
  assert (Forall P (premium_purchases db1)) as H1
    by (apply update_quotas_loop_purchases, H).
  destruct (last_entry _ _) as [t|]; [|exact H1].
  destruct (_ <=? _); exact H1.
Qed.

Section Ledger.

Variables PREMIUM_DAYS import_time : Z.

Lemma ledger_ok_empty : ledger_ok empty_db.
Proof.
  split.
  - intros user_id u H. cbn in H. rewrite lookup_empty in H. discriminate.
  - constructor.
Qed.

(** Rewriting one row keeps the counters in range when the new row is. *)
Lemma ledger_ok_alter (f : User -> User) (user_id : Z) (db : DB) :
  (forall u, 0 <= requests_left u /\ 0 <= targets_left u ->
             0 <= requests_left (f u) /\ 0 <= targets_left (f u)) ->
  ledger_ok db -> ledger_ok (with_users (alter f user_id) db).
Proof.
  intros Hf [Hu Hp]. split; [|exact Hp].
  intros j u'. rewrite lookup_user_alter.
  destruct (decide (user_id = j)) as [->|_]; [|apply Hu].
  destruct (users db !! j) as [u|] eqn:E; cbn; [|discriminate].
  intros [= <-]. apply Hf, (Hu j), E.
Qed.

Lemma run_op_ledger_ok (o : LedgerOp) (db : DB) :
  nonneg_args o -> ledger_ok db -> ledger_ok (run_op PREMIUM_DAYS import_time db o).
Proof.
  intros Hargs Hok.
  destruct o as [uid un fn ln|uid n|uid n|uid now|uid number|free td now];
    cbn [run_op nonneg_args] in *.
  - (* insert_user *)
    unfold insert_user. destruct (users db !! uid) as [u0|] eqn:E; [exact Hok|].
    destruct Hok as [Hu Hp]. split; [|exact Hp].
    intros j u'. cbn. rewrite lookup_insert.
    destruct (decide (uid = j)) as [_|_]; [|apply Hu].
    intros [= <-]. cbn. lia.
  - (* decrement_requests_left *)
    apply ledger_ok_alter; [|exact Hok]. intros u [Hr Ht].
    destruct (decrement_requests_row_spec n u Hargs) as [_ Hpos].
    split; [exact Hpos|].
    unfold decrement_requests_row. destruct (0 <? requests_left u); exact Ht.
  - (* decrement_targets_left *)
    apply ledger_ok_alter; [|exact Hok]. intros u [Hr Ht].
    unfold decrement_targets_row. destruct (0 <? targets_left u); cbn; lia.
  - (* buy_premium *)
    unfold buy_premium. destruct (users db !! uid) as [u0|] eqn:E; [|exact Hok].
    apply ledger_ok_alter.
    + intros u [Hr Ht]. cbn. lia.
    + destruct Hok as [Hu Hp]. split; [exact Hu|].
      cbn. apply Forall_app. split; [exact Hp|].
      constructor; [cbn; lia | constructor].
  - (* set_requests_left *)
    unfold set_requests_left. destruct (users db !! uid) as [u0|]; exact Hok.
  - (* update_user_quotas *)
    destruct Hok as [Hu Hp]. split.
    + intros j u'. rewrite update_user_quotas_users.
      destruct (users db !! j) as [u|] eqn:E; cbn; [|discriminate].
      intros [= <-]. destruct (Hu j u E) as [Hr Ht].
      destruct (active_purchases j (date now) (premium_purchases db)) as [|p ps] eqn:Ea.
      * cbn. lia.
      * cbn [update_quotas_row]. cbn [requests_left targets_left set_targets set_requests].
        apply sum_increments_nonneg. rewrite <- Ea.
        apply Forall_list_filter, Hp.
    + apply update_user_quotas_purchases, Hp.
Qed.

Lemma run_ops_ledger_ok (ops : list LedgerOp) (db : DB) :
  Forall nonneg_args ops -> ledger_ok db ->
  ledger_ok (run_ops PREMIUM_DAYS import_time ops db).
Proof.
  intros Hops. revert db. induction Hops as [|o ops Ho Hops IH]; intros db Hok.
  - exact Hok.
  - cbn. apply IH, run_op_ledger_ok; assumption.
Qed.

End Ledger.

(** C5: whatever sequence of user creations, decrements of requests or of
    target credits, premium grants, resets and reconciliation sweeps is
    run with non-negative amounts, on a fresh store or on any store whose
    counters are in range, no user ends with a negative [requests_left] or
    [targets_left].  (A reset that raises is rolled back and the sequence
    goes on from the store of before.) *)
Theorem counters_never_negative
    (PREMIUM_DAYS import_time : Z) (ops : list LedgerOp) (db : DB) (user_id : Z) (u : User) :
  db = empty_db \/ ledger_ok db ->
  Forall nonneg_args ops ->
  users (run_ops PREMIUM_DAYS import_time ops db) !! user_id = Some u ->
  0 <= requests_left u /\ 0 <= targets_left u.
Proof.
  intros Hdb Hops Hu.
  assert (ledger_ok db) as Hok
    by (destruct Hdb as [->|H]; [apply ledger_ok_empty | exact H]).
  destruct (run_ops_ledger_ok PREMIUM_DAYS import_time ops db Hops Hok) as [Hall _].
  apply (Hall user_id), Hu.
Qed.

Lemma counters_never_negative_witness :
  users (run_ops 30 0 sample_ops empty_db) !! 1
  = Some (mkUser "1" 0 "free" 10 0 0 None)
  /\ 0 <= 10 /\ 0 <= 0.
Proof.
  split; [reflexivity|].
  apply (counters_never_negative 30 0 sample_ops empty_db 1
           (mkUser "1" 0 "free" 10 0 0 None)).
  - left. reflexivity.
  - unfold sample_ops. repeat constructor; cbn; lia.
  - reflexivity.
Defined.

(** ** The two gates in front of the photo handler *)

Lemma not_accepted_answer (text : string) : ~ accepted [Answer text].
Proof. intros [url [H|[]]]. discriminate H. Qed.

Lemma check_time_limit_replies (user : User) (now n_time : Z) (url : string) :
  ~ In (Get url) (snd (check_time_limit user now n_time)).
Proof.
  unfold check_time_limit. destruct (is_premium user); [intros []|].
  destruct (_ <? _); cbn; [|intros []].
  intros [H|[]]. discriminate H.
Qed.

Section Gates.

Variables (import_time : Z) (token cwd : string).

Lemma image_handler_rejects (m : Photo) (b : Bot) :
  fst (prevent_multisending m (SENT_TIME b)) = false ->
  image_handler import_time token cwd m b
  = (b, [Answer "Please send one photo at a time."]).
Proof.
  intros H. unfold image_handler.
  destruct (prevent_multisending m (SENT_TIME b)) as [ok sent] eqn:E.
  cbn in H. subst ok.
  unfold prevent_multisending in E.
  destruct (_ && _) in E; [discriminate|].
  injection E as <-. destruct b; reflexivity.
Qed.

Lemma image_handler_sent_time (m : Photo) (b : Bot) :
  SENT_TIME (fst (image_handler import_time token cwd m b))
  = snd (prevent_multisending m (SENT_TIME b)).
Proof.
  unfold image_handler.
  destruct (prevent_multisending m (SENT_TIME b)) as [[|] sent]; cbn; [|reflexivity].
  destruct (handle_image import_time token cwd m (database b)); reflexivity.
Qed.

Lemma handle_image_accepted_gates (m : Photo) (db : DB) :
  accepted (snd (handle_image import_time token cwd m db)) ->
  exists user,
    fetch_user_data (from_user m) (exist_user_check import_time (from_user m) (profile m) db)
    = Some user
    /\ fst (check_limit user) = true
    /\ fst (check_time_limit user (now m) 20) = true.
Proof.
  intros [url Hin]. unfold handle_image in Hin.
  destruct (fetch_user_data _ _) as [user|]; [|destruct Hin].
  exists user. split; [reflexivity|].
  unfold check_limit in *.
  destruct (requests_left user <=? 0); cbn in Hin.
  - destruct Hin as [H|[]]. discriminate H.
  - split; [reflexivity|].
    pose proof (check_time_limit_replies user (now m) 20 url) as Hno.
    destruct (check_time_limit user (now m) 20) as [[|] said]; [reflexivity|].
    cbn in Hin, Hno. contradiction.
Qed.

End Gates.

(** ** The photo handler *)

Section PhotoHandler.

Variables (import_time : Z) (token cwd : string).

Local Abbreviation ensure_user := (exist_user_check import_time).
Local Abbreviation handler := (handle_image import_time token cwd).
Local Abbreviation try_block := (handle_image_try import_time token).
Local Abbreviation at_try := (store_at_try import_time cwd).
Local Abbreviation path_of := (input_path_of cwd).

(** The store when the [try] block is entered: the second sign-up check,
    the one of [log_input_image_data], finds the names already written. *)
Lemma store_at_try_eq (m : Photo) (user : User) (db : DB) :
  users (ensure_user (from_user m) (profile m) db) !! from_user m = Some user ->
  at_try m user db
  = create_image_entry (from_user m) (path_of m user) (now m)
      (update_photo_timestamp (from_user m) (now m)
         (ensure_user (from_user m) (profile m) db)).
Proof.
  intros Hu. unfold store_at_try, log_input_image_data. f_equal.
  apply (exist_user_check_settled import_time _ _ _
           (set_last_photo_sent_timestamp (now m) user)).
  - unfold update_photo_timestamp. apply lookup_user_alter_eq, Hu.
  - unfold update_photo_timestamp. cbn [with_users user_names].
    rewrite exist_user_check_names. apply lookup_insert_eq.
Qed.

(** The users table when the [try] block is entered. *)
Lemma store_at_try_users (m : Photo) (user : User) (db : DB) (j : Z) :
  users (ensure_user (from_user m) (profile m) db) !! from_user m = Some user ->
  users (at_try m user db) !! j
  = if decide (from_user m = j)
    then Some (set_last_photo_sent_timestamp (now m) user)
    else users (ensure_user (from_user m) (profile m) db) !! j.
Proof.
  intros Hu. rewrite store_at_try_eq by exact Hu.
  cbn [create_image_entry with_image_names users].
  unfold update_photo_timestamp. rewrite lookup_user_alter, Hu. reflexivity.
Qed.

Lemma store_at_try_images (m : Photo) (user : User) (db : DB) :
  image_names (at_try m user db)
  = (image_names db
       ++ [mkImageName (from_user m) (path_of m user) None (now m)])%list.
Proof.
  unfold store_at_try, log_input_image_data.
  cbn [create_image_entry with_image_names image_names].
  destruct (exist_user_check_rest import_time (from_user m) (profile m)
              (update_photo_timestamp (from_user m) (now m)
                 (ensure_user (from_user m) (profile m) db))) as (_ & -> & _).
  unfold update_photo_timestamp. cbn [with_users image_names].
  destruct (exist_user_check_rest import_time (from_user m) (profile m) db)
    as (_ & -> & _).
  reflexivity.
Qed.

(** A further sign-up check of the sender changes nothing from then on. *)
Lemma store_at_try_settled (m : Photo) (user : User) (db : DB) :
  users (ensure_user (from_user m) (profile m) db) !! from_user m = Some user ->
  ensure_user (from_user m) (profile m) (at_try m user db) = at_try m user db.
Proof.
  intros Hu.
  apply (exist_user_check_settled import_time _ _ _
           (set_last_photo_sent_timestamp (now m) user)).
  - rewrite store_at_try_users by exact Hu.
    destruct (decide (from_user m = from_user m)); congruence.
  - rewrite store_at_try_eq by exact Hu.
    cbn [create_image_entry with_image_names user_names].
    unfold update_photo_timestamp. cbn [with_users user_names].
    rewrite exist_user_check_names. apply lookup_insert_eq.
Qed.

(** A photo that passes the quota check and the time gate enters the [try]
    block; whatever is raised there ends in the generic apology. *)
Lemma handle_image_passed (m : Photo) (db : DB) (user : User) :
  users (ensure_user (from_user m) (profile m) db) !! from_user m = Some user ->
  0 < requests_left user ->
  fst (check_time_limit user (now m) 20) = true ->
  handler m db
  = match try_block m user (path_of m user) (at_try m user db) with
    | Returned db' out => (db', out)
    | Raised db' out =>
        (db', (out ++ [Answer "Sorry must have been an error. Try again later."])%list)
    end.
Proof.
  intros Hu Hr Ht. unfold handle_image, fetch_user_data. rewrite Hu.
  unfold check_limit. apply Z.leb_gt in Hr. rewrite Hr. cbn [negb].
  destruct (check_time_limit user (now m) 20) as [ok said]. cbn in Ht. subst ok.
  cbn [negb]. reflexivity.
Qed.

(** The first thing the [try] block does is to ask for the file. *)
Lemma handle_image_try_fetches (m : Photo) (user : User) (input_path : string) (db : DB) :
  In (Get ("https://api.telegram.org/file/bot" ++ token ++ "/" ++ file_path m))
     (actions_of (try_block m user input_path db)).
Proof.
  unfold handle_image_try.
  destruct (download m) as [code decodes|]; [|left; reflexivity].
  destruct (negb (code =? 200)); [left; reflexivity|].
  destruct (negb decodes); [left; reflexivity|].
  destruct (target_image_check _ _ _ _) as [[|] db1]; [left; reflexivity|].
  destruct (worker m) as [wcode body|]; [|left; reflexivity].
  destruct (negb (wcode =? 200)); [left; reflexivity|].
  destruct body as [image_paths|]; [|left; reflexivity].
  destruct (log_output_image_data _ _ _ _ _ _ _) as [db3|]; [|left; reflexivity].
  destruct (send_outputs _ _ _ _ _) as [[[[| |] ul] dbl] sent]; left; reflexivity.
Qed.

(** A photo of a sender with requests left that passes the time gate is
    taken up. *)
Lemma handle_image_accepts (m : Photo) (db : DB) (user : User) :
  users (ensure_user (from_user m) (profile m) db) !! from_user m = Some user ->
  0 < requests_left user ->
  fst (check_time_limit user (now m) 20) = true ->
  accepted (snd (handler m db)).
Proof.
  intros Hu Hr Ht. rewrite (handle_image_passed m db user Hu Hr Ht).
  pose proof (handle_image_try_fetches m user (path_of m user) (at_try m user db)) as Hin.
  eexists.
  destruct (try_block m user (path_of m user) (at_try m user db)) as [db' out|db' out];
    cbn [snd actions_of] in *.
  - exact Hin.
  - apply in_or_app. left. exact Hin.
Qed.

End PhotoHandler.

(** ** The two gates together *)

(** C7, as the code has it: a photo is taken up for processing only if it
    passes the multi-send gate and the sender has requests left and
    passes the time gate; a photo of a media group is always turned down
    with the one-at-a-time reply.  Of two single photos of one user sent
    one second apart at most one is taken up, and if the first gets
    through the multi-send gate the second is turned down with that
    reply; the first is taken up, which makes one acceptance and one
    rejection, when it is not itself within two seconds of a photo let
    through before, and the sender has requests left and passes the time
    gate.  The 20 second gate is waived for premium users and binds
    everybody else. *)
Theorem photo_gates (import_time : Z) (token cwd : string) :
  DELAY_BETWEEN_IMAGES = 2
  /\ (forall m b,
        accepted (snd (image_handler import_time token cwd m b)) ->
        fst (prevent_multisending m (SENT_TIME b)) = true
        /\ exists user,
             fetch_user_data (from_user m)
               (exist_user_check import_time (from_user m) (profile m) (database b))
             = Some user
             /\ 0 < requests_left user
             /\ fst (check_time_limit user (now m) 20) = true)
  /\ (forall m b g,
        media_group_id m = Some g ->
        image_handler import_time token cwd m b
        = (b, [Answer "Please send one photo at a time."]))
  /\ (forall m1 m2 b,
        media_group_id m1 = None -> media_group_id m2 = None ->
        from_user m2 = from_user m1 ->
        now m2 = now m1 + 1 ->
        let b1 := fst (image_handler import_time token cwd m1 b) in
        let out1 := snd (image_handler import_time token cwd m1 b) in
        let out2 := snd (image_handler import_time token cwd m2 b1) in
        ~ (accepted out1 /\ accepted out2)
        /\ (fst (prevent_multisending m1 (SENT_TIME b)) = true ->
            image_handler import_time token cwd m2 b1
            = (b1, [Answer "Please send one photo at a time."]))
        /\ (forall user,
              (forall s, SENT_TIME b !! from_user m1 = Some s ->
                         DELAY_BETWEEN_IMAGES <= now m1 - s) ->
              users (exist_user_check import_time (from_user m1) (profile m1)
                       (database b)) !! from_user m1 = Some user ->
              0 < requests_left user ->
              fst (check_time_limit user (now m1) 20) = true ->
              accepted out1
              /\ out2 = [Answer "Please send one photo at a time."]
              /\ ~ accepted out2))
  /\ (forall user now,
        is_premium user = true -> check_time_limit user now 20 = (true, []))
  /\ (forall user now,
        is_premium user = false ->
        (fst (check_time_limit user now 20) = true
         <-> 20 <= now - last_photo_sent_timestamp user)).
Proof.
  split; [reflexivity|]. split; [|split; [|split; [|split]]].
  - intros m b Hacc. unfold image_handler in Hacc.
    destruct (prevent_multisending m (SENT_TIME b)) as [[|] sent] eqn:E; cbn in *.
    + split; [reflexivity|].
      destruct (handle_image import_time token cwd m (database b)) as [db out] eqn:Eh.
      cbn in Hacc.
      destruct (handle_image_accepted_gates import_time token cwd m (database b))
        as (user & Hu & Hl & Ht).
      { rewrite Eh. exact Hacc. }
      exists user. split; [exact Hu|]. split; [|exact Ht].
      unfold check_limit in Hl.
      destruct (requests_left user <=? 0) eqn:Er; [discriminate Hl|].
      apply Z.leb_gt, Er.
    + destruct Hacc as [url [H|[]]]. discriminate H.
  - intros m b g Hg. apply image_handler_rejects.
    unfold prevent_multisending. rewrite Hg. reflexivity.
  - intros m1 m2 b Hg1 Hg2 Hfrom Hnow b1 out1 out2.
    assert (fst (prevent_multisending m1 (SENT_TIME b)) = true ->
            image_handler import_time token cwd m2 b1
            = (b1, [Answer "Please send one photo at a time."])) as Hsecond.
    { intros Hpass. apply image_handler_rejects.
      unfold b1. rewrite image_handler_sent_time.
      unfold prevent_multisending in Hpass |- *.
      destruct (_ && _) in Hpass |- *; [|discriminate Hpass]. cbn [snd].
      rewrite Hg2, Hfrom, lookup_insert_eq, Hnow.
      unfold DELAY_BETWEEN_IMAGES.
      replace (now m1 + 1 - now m1) with 1 by lia. reflexivity. }
    assert (accepted out1 -> fst (prevent_multisending m1 (SENT_TIME b)) = true)
      as Hfirst.
    { unfold out1, image_handler.
      destruct (prevent_multisending m1 (SENT_TIME b)) as [[|] sent]; [reflexivity|].
      intros Hacc. exfalso. exact (not_accepted_answer _ Hacc). }
    split; [|split; [exact Hsecond|]].
    + intros [Hacc1 Hacc2]. unfold out2 in Hacc2.
      rewrite (Hsecond (Hfirst Hacc1)) in Hacc2.
      exact (not_accepted_answer _ Hacc2).
    + intros user Hprior Hu Hr Ht.
      assert (prevent_multisending m1 (SENT_TIME b)
              = (true, <[from_user m1 := now m1]> (SENT_TIME b))) as E1.
      { unfold prevent_multisending. rewrite Hg1.
        destruct (SENT_TIME b !! from_user m1) as [s|] eqn:Es; [|reflexivity].
        specialize (Hprior s eq_refl). apply Z.leb_le in Hprior.
        rewrite Hprior. reflexivity. }
      assert (out2 = [Answer "Please send one photo at a time."]) as E2
        by (unfold out2; rewrite Hsecond by (rewrite E1; reflexivity); reflexivity).
      split; [|split; [exact E2 | rewrite E2; apply not_accepted_answer]].
      unfold out1, image_handler. rewrite E1.
      pose proof (handle_image_accepts import_time token cwd m1 (database b) user
                    Hu Hr Ht) as Hacc.
      destruct (handle_image import_time token cwd m1 (database b)) as [db out].
      exact Hacc.
  - intros user now Hp. unfold check_time_limit. rewrite Hp. reflexivity.
  - intros user now Hp. unfold check_time_limit, timedelta_seconds. rewrite Hp.
    destruct (now - last_photo_sent_timestamp user <? 20) eqn:E; cbn.
    + apply Z.ltb_lt in E. split; [discriminate | lia].
    + apply Z.ltb_ge in E. split; [intros _; exact E | reflexivity].
Qed.

Lemma photo_gates_witness :
  image_handler 0 "TOKEN" "/srv/bot" (album_photo 1 5) fresh_bot
  = (fresh_bot, [Answer "Please send one photo at a time."])
  /\ accepted
       (snd (image_handler 0 "TOKEN" "/srv/bot" (single_photo 2 100 Failed)
               (started_on sample_db)))
  /\ snd (image_handler 0 "TOKEN" "/srv/bot" (single_photo 2 101 Failed)
            (fst (image_handler 0 "TOKEN" "/srv/bot" (single_photo 2 100 Failed)
                    (started_on sample_db))))
     = [Answer "Please send one photo at a time."].
Proof.
  destruct (photo_gates 0 "TOKEN" "/srv/bot") as (_ & _ & Hgroup & Htwo & _).
  split.
  - apply (Hgroup (album_photo 1 5) fresh_bot "album-1"). reflexivity.
  - destruct (Htwo (single_photo 2 100 Failed) (single_photo 2 101 Failed)
                (started_on sample_db) eq_refl eq_refl eq_refl eq_refl)
      as (_ & _ & Hboth).
    destruct (Hboth (mkUser "3" 0 "free" 3 0 0 None)) as (Hacc & Hrej & _).
    + intros s Hs. cbn in Hs. rewrite lookup_empty in Hs. discriminate Hs.
    + reflexivity.
    + reflexivity.
    + reflexivity.
    + split; [exact Hacc | exact Hrej].
Defined.

(** C7 as the specification words it fails: a free user whose last photo
    was processed at second 0 sends two single photos at seconds 5 and
    6, and no photo was let through before.  The first passes the
    multi-send gate and is stopped by the time gate, the second is
    stopped by the multi-send gate: two rejections and no acceptance. *)
Lemma two_photos_none_accepted :
  let m1 := single_photo 2 5 (Status 200 (Some three_outputs)) in
  let m2 := single_photo 2 6 (Status 200 (Some three_outputs)) in
  let b := started_on sample_db in
  let b1 := fst (image_handler 0 "TOKEN" "/srv/bot" m1 b) in
  media_group_id m1 = None /\ media_group_id m2 = None
  /\ from_user m2 = from_user m1
  /\ now m2 = now m1 + 1
  /\ SENT_TIME b !! from_user m1 = None
  /\ snd (image_handler 0 "TOKEN" "/srv/bot" m1 b)
     = [Answer "Sorry, too many requests. Please wait 15 more seconds"]
  /\ snd (image_handler 0 "TOKEN" "/srv/bot" m2 b1)
     = [Answer "Please send one photo at a time."]
  /\ ~ accepted (snd (image_handler 0 "TOKEN" "/srv/bot" m1 b))
  /\ ~ accepted (snd (image_handler 0 "TOKEN" "/srv/bot" m2 b1)).
Proof.
  intros m1 m2 b b1.
  assert (snd (image_handler 0 "TOKEN" "/srv/bot" m1 b)
          = [Answer "Sorry, too many requests. Please wait 15 more seconds"]) as E1
    by (vm_compute; reflexivity).
  assert (snd (image_handler 0 "TOKEN" "/srv/bot" m2 b1)
          = [Answer "Please send one photo at a time."]) as E2
    by (vm_compute; reflexivity).
  repeat split; try reflexivity; try assumption.
  - rewrite E1. apply not_accepted_answer.
  - rewrite E2. apply not_accepted_answer.
Qed.

(** *** Uploading a target *)

(** C8: a premium user with the target flag raised, who still has requests
    left, sends a photo that downloads and decodes.  The handler answers
    that the target is uploaded and stops: the worker is not called
    whatever it would have answered, the photo's path becomes the user's
    mode, the flag is lowered, [requests_left] and [targets_left] keep
    their values, and the next photo of that user that gets to the worker
    is posted with that path as its mode. *)
Theorem target_upload
    (import_time : Z) (token cwd : string) (m : Photo) (db : DB) (user : User) :
  users (exist_user_check import_time (from_user m) (profile m) db)
    !! from_user m = Some user ->
  is_premium user = true ->
  flag_on user = true ->
  0 < requests_left user ->
  download m = Status 200 true ->
  let target := generate_filename cwd "target_images" (rand m) in
  let db' := fst (handle_image import_time token cwd m db) in
  let out := snd (handle_image import_time token cwd m db) in
  last_action out = Some (Answer "Target image uploaded, send your source image")
  /\ (forall url path md, ~ In (Post url path md) out)
  /\ photos out = []
  /\ (exists u',
        users db' !! from_user m = Some u'
        /\ mode u' = target
        /\ receive_target_flag u' = 0
        /\ status u' = status user
        /\ requests_left u' = requests_left user
        /\ targets_left u' = targets_left user)
  /\ (forall m2,
        from_user m2 = from_user m ->
        download m2 = Status 200 true ->
        In (Post face_extraction_url
              (generate_filename cwd "original" (rand m2)) target)
           (snd (handle_image import_time token cwd m2 db'))).
Proof.
  intros Hu Hp Hf Hr Hd target db' out.
  assert (fst (check_time_limit user (now m) 20) = true) as Ht
    by (unfold check_time_limit; rewrite Hp; reflexivity).
  pose proof (handle_image_passed import_time token cwd m db user Hu Hr Ht) as E.
  unfold handle_image_try in E. rewrite Hd in E. cbn [Z.eqb negb Pos.eqb] in E.
  unfold target_image_check in E. rewrite Hp, Hf in E. cbn [andb] in E.
  assert (input_path_of cwd m user = target) as Hpath
    by (unfold input_path_of; rewrite Hf; reflexivity).
  rewrite Hpath in E.
  set (db2 := store_at_try import_time cwd m user db) in E.
  assert (users db' !! from_user m
          = Some (set_receive_target_flag 0
                    (set_mode target (set_last_photo_sent_timestamp (now m) user))))
    as Hrow.
  { unfold db'. rewrite E. cbn [fst]. unfold toggle_receive_target_flag.
    rewrite lookup_user_alter. destruct (decide (from_user m = from_user m)); [|congruence].
    unfold update_user_mode. rewrite lookup_user_alter.
    destruct (decide (from_user m = from_user m)); [|congruence].
    unfold db2. rewrite store_at_try_users by exact Hu.
    destruct (decide (from_user m = from_user m)); [|congruence].
    reflexivity. }
  unfold out. rewrite E. cbn [snd].
  split; [reflexivity|]. split.
  { intros url path md Hin. cbn in Hin.
    destruct Hin as [H|[H|[H|[]]]]; discriminate H. }
  split; [reflexivity|]. split.
  { eexists. split; [exact Hrow|]. cbn. repeat split; reflexivity. }
  intros m2 Hfrom Hd2.
  set (u2 := set_receive_target_flag 0
               (set_mode target (set_last_photo_sent_timestamp (now m) user))) in *.
  assert (users (exist_user_check import_time (from_user m2) (profile m2) db') !! from_user m2
          = Some u2) as Hu2.
  { rewrite Hfrom.
    rewrite (exist_user_check_users_known import_time (from_user m) (profile m2) db' u2
               Hrow).
    exact Hrow. }
  assert (fst (check_time_limit u2 (now m2) 20) = true) as Ht2
    by (unfold check_time_limit; cbn; unfold is_premium in Hp; rewrite Hp; reflexivity).
  rewrite (handle_image_passed import_time token cwd m2 db' u2 Hu2 Hr Ht2).
  unfold handle_image_try. rewrite Hd2. cbn [Z.eqb negb Pos.eqb].
  unfold target_image_check.
  replace (is_premium u2 && flag_on u2) with false
    by (unfold flag_on; cbn; rewrite andb_false_r; reflexivity).
  replace (input_path_of cwd m2 u2) with (generate_filename cwd "original" (rand m2))
    by reflexivity.
  replace (mode u2) with target by reflexivity.
  set (post := Post face_extraction_url _ target).
  destruct (worker m2) as [code body|].
  2: { cbn. right. right. left. reflexivity. }
  destruct (negb (code =? 200)).
  { cbn. right. right. left. reflexivity. }
  destruct body as [image_paths|].
  2: { cbn. right. right. left. reflexivity. }
  destruct (log_output_image_data _ _ _ _ _ _ _) as [db3|].
  2: { cbn. right. right. left. reflexivity. }
  destruct (send_outputs _ _ _ _ _) as [[[[| |] ul] dbl] sent];
    cbn; right; right; left; reflexivity.
Qed.

Lemma target_upload_witness :
  last_action
    (snd (handle_image 0 "TOKEN" "/srv/bot"
            (single_photo 7 500 (Status 200 (Some three_outputs))) awaiting_target_db))
  = Some (Answer "Target image uploaded, send your source image")
  /\ photos
       (snd (handle_image 0 "TOKEN" "/srv/bot"
               (single_photo 7 500 (Status 200 (Some three_outputs))) awaiting_target_db))
     = [].
Proof.
  destruct (target_upload 0 "TOKEN" "/srv/bot"
              (single_photo 7 500 (Status 200 (Some three_outputs))) awaiting_target_db
              (mkUser "3" 1 "premium" 40 9 0 (Some 30))
              eq_refl eq_refl eq_refl eq_refl eq_refl)
    as (Hlast & _ & Hphotos & _).
  split; [exact Hlast | exact Hphotos].
Defined.

(** *** A failing worker *)

(** C6: the photo of a user with requests left passes the time gate,
    downloads, is not a target upload, and the worker call fails (the
    request raises, as on a timeout or a refused connection, or the
    status is not 200).  Then the last thing the user gets is one of the
    two try-again replies, no output is sent, every user keeps the
    [requests_left] and [targets_left] held before the attempt, and the
    image row written for this photo has no output. *)
Theorem worker_failure
    (import_time : Z) (token cwd : string) (m : Photo) (db : DB) (user : User) :
  users (exist_user_check import_time (from_user m) (profile m) db)
    !! from_user m = Some user ->
  0 < requests_left user ->
  fst (check_time_limit user (now m) 20) = true ->
  download m = Status 200 true ->
  is_premium user && flag_on user = false ->
  worker_fails m ->
  let db' := fst (handle_image import_time token cwd m db) in
  let out := snd (handle_image import_time token cwd m db) in
  In (Post face_extraction_url (input_path_of cwd m user) (mode user)) out
  /\ (exists reply, In reply retry_replies /\ last_action out = Some reply)
  /\ photos out = []
  /\ (exists u',
        users db' !! from_user m = Some u'
        /\ requests_left u' = requests_left user
        /\ targets_left u' = targets_left user)
  /\ (forall j u,
        users db !! j = Some u ->
        exists u',
          users db' !! j = Some u'
          /\ requests_left u' = requests_left u
          /\ targets_left u' = targets_left u)
  /\ image_names db'
     = (image_names db
          ++ [mkImageName (from_user m) (input_path_of cwd m user) None (now m)])%list.
Proof.
  intros Hu Hr Ht Hd Hnt Hw db' out.
  pose proof (handle_image_passed import_time token cwd m db user Hu Hr Ht) as E.
  unfold handle_image_try in E. rewrite Hd in E. cbn [Z.eqb negb Pos.eqb] in E.
  unfold target_image_check in E. rewrite Hnt in E.
  set (db2 := store_at_try import_time cwd m user db) in *.
  assert (db' = db2
          /\ In (Post face_extraction_url (input_path_of cwd m user) (mode user)) out
          /\ (exists reply, In reply retry_replies /\ last_action out = Some reply)
          /\ photos out = []) as (Hdb & Hpost & Hreply & Hphotos).
  { unfold db', out. destruct Hw as [Hw|(code & body & Hw & Hcode)]; rewrite Hw in E.
    - rewrite E. cbn [fst snd]. split; [reflexivity|]. split.
      + cbn. right. right. left. reflexivity.
      + split; [|reflexivity].
        eexists. split; [right; left; reflexivity | reflexivity].
    - apply Z.eqb_neq in Hcode. rewrite Hcode in E. cbn [negb] in E.
      rewrite E. cbn [fst snd]. split; [reflexivity|]. split.
      + cbn. right. right. left. reflexivity.
      + split; [|reflexivity].
        eexists. split; [left; reflexivity | reflexivity]. }
  split; [exact Hpost|]. split; [exact Hreply|]. split; [exact Hphotos|].
  rewrite Hdb. unfold db2. split; [|split].
  - eexists. split.
    + rewrite store_at_try_users by exact Hu.
      destruct (decide (from_user m = from_user m)); [reflexivity|congruence].
    + split; reflexivity.
  - intros j u Hj. rewrite store_at_try_users by exact Hu.
    destruct (decide (from_user m = j)) as [<-|Hne].
    + rewrite (exist_user_check_users_known import_time (from_user m) (profile m) db u Hj)
        in Hu.
      rewrite Hj in Hu. injection Hu as <-.
      eexists. split; [reflexivity|]. split; reflexivity.
    + rewrite exist_user_check_other by congruence.
      exists u. repeat split. exact Hj.
  - apply store_at_try_images.
Qed.

Lemma worker_failure_witness :
  (exists reply,
      In reply retry_replies
      /\ last_action
           (snd (handle_image 0 "TOKEN" "/srv/bot" (single_photo 1 500 Failed)
                   last_request_db))
         = Some reply)
  /\ exists u',
       users (fst (handle_image 0 "TOKEN" "/srv/bot" (single_photo 1 500 Failed)
                     last_request_db)) !! 1 = Some u'
       /\ requests_left u' = 1.
Proof.
  destruct (worker_failure 0 "TOKEN" "/srv/bot" (single_photo 1 500 Failed)
              last_request_db (mkUser "3" 0 "free" 1 0 0 None)
              eq_refl eq_refl eq_refl eq_refl eq_refl (or_introl eq_refl))
    as (_ & Hreply & _ & (u' & Hu' & Hr & _) & _).
  split; [exact Hreply|]. exists u'. split; assumption.
Defined.

(** *** Sending the worker's outputs *)






Lemma image_entry_matches_refl user_id input out now :
  image_entry_matches user_id input (mkImageName user_id input out now) = true.
Proof.
  unfold image_entry_matches. cbn. rewrite Z.eqb_refl, String.eqb_refl. reflexivity.
Qed.



Lemma nobody_else_alone (user_id now : Z) (answer : Response (option (list string))) :
  alone (single_photo user_id now answer).
Proof. intros i db. reflexivity. Qed.



(** ** The target flag and the tier *)





(** * Further properties of the storage layer *)

(** ** Creating and finding users *)

Lemma with_users_id (db : DB) (f : gmap Z User -> gmap Z User) :
  f (users db) = users db -> with_users f db = db.
Proof. intros H. destruct db. unfold with_users. cbn in *. rewrite H. reflexivity. Qed.

Lemma alter_unknown_user (f : User -> User) (user_id : Z) (db : DB) :
  users db !! user_id = None -> with_users (alter f user_id) db = db.
Proof. intros H. apply with_users_id, alter_id', H. Qed.

(** X1: [insert_user] writes the three names, spaces turned into
    underscores, into the row of the user, whether the row was there or
    not, and touches nothing else of a row that was there: mode, flag,
    tier, counters, timestamp and expiration are never overwritten.  A
    sender who was not known gets the column defaults (free tier, 10
    requests, no target credits, flag lowered).  The names of the other
    users, the purchases, the image rows and the run-log are left alone,
    and a second call with the same names changes nothing. *)
Theorem insert_user_keeps_rows
    (import_time user_id : Z) (username first_name last_name : string) (db : DB) :
  let db' := insert_user import_time user_id username first_name last_name db in
  (forall j u, users db !! j = Some u -> users db' !! j = Some u)
  /\ (users db !! user_id = None ->
      users db' !! user_id = Some (mkUser "1" 0 "free" 10 0 import_time None))
  /\ (forall j, j <> user_id -> users db' !! j = users db !! j)
  /\ user_names db' !! user_id
     = Some (mkNames (replace_space username) (replace_space first_name)
               (replace_space last_name))
  /\ (forall j, j <> user_id -> user_names db' !! j = user_names db !! j)
  /\ insert_user import_time user_id username first_name last_name db' = db'
  /\ premium_purchases db' = premium_purchases db
  /\ image_names db' = image_names db
  /\ scheduler_logs db' = scheduler_logs db.
Proof.
  intros db'.
  assert (insert_user import_time user_id username first_name last_name db' = db')
    as Hagain.
  { unfold db', insert_user. destruct db as [us ns ps ims logs off]. cbn [users].
    destruct (us !! user_id) as [u0|] eqn:E; unfold with_user_names, with_users;
      cbn [users user_names premium_purchases image_names scheduler_logs utc_offset];
      rewrite ?E, ?lookup_insert_eq; f_equal; apply insert_insert_eq. }
  split; [|split; [|split; [|split; [|split; [|split; [exact Hagain|]]]]]];
    unfold db', insert_user; destruct (users db !! user_id) as [u0|] eqn:E;
    cbn [with_users with_user_names users user_names premium_purchases image_names
         scheduler_logs]; try (repeat split; fail).
  - intros j u Hj. exact Hj.
  - intros j u Hj. rewrite lookup_insert_ne; [exact Hj|congruence].
  - discriminate.
  - intros _. apply lookup_insert_eq.
  - intros j Hj. apply lookup_insert_ne. congruence.
  - apply lookup_insert_eq.
  - apply lookup_insert_eq.
  - intros j Hj. apply lookup_insert_ne. congruence.
  - intros j Hj. apply lookup_insert_ne. congruence.
Qed.

Lemma insert_user_keeps_rows_witness :
  users (insert_user 7 1 "" "Mary Ann" "Lee" empty_db) !! 1
  = Some (mkUser "1" 0 "free" 10 0 7 None)
  /\ users (insert_user 7 2 "bob" "Bob" "Lee" sample_db) !! 2
     = Some (mkUser "3" 0 "free" 3 0 0 None)
  /\ user_names (insert_user 7 2 "bob" "Bob" "Lee" sample_db) !! 2
     = Some (mkNames "bob" "Bob" "Lee")
  /\ user_names (insert_user 7 1 "" "Mary Ann" "Lee" empty_db) !! 1
     = Some (mkNames "" "Mary_Ann" "Lee").
Proof.
  destruct (insert_user_keeps_rows 7 1 "" "Mary Ann" "Lee" empty_db)
    as (_ & Hnew & _ & Hnames & _).
  destruct (insert_user_keeps_rows 7 2 "bob" "Bob" "Lee" sample_db)
    as (Hkept & _ & _ & Hnames' & _).
  split; [|split; [|split]].
  - apply Hnew. reflexivity.
  - apply Hkept. reflexivity.
  - exact Hnames'.
  - exact Hnames.
Defined.

(** X2: For a [user_id] that is not in the table, every operation that
    updates a user row returns and leaves the whole store as it was:
    nothing is created and no purchase is recorded. *)
Theorem unknown_user_is_left_alone
    (PREMIUM_DAYS user_id : Z) (db : DB) (m : string) (n t : Z) :
  users db !! user_id = None ->
  update_user_mode user_id m db = db
  /\ decrement_requests_left user_id n db = (None, db)
  /\ decrement_targets_left user_id n db = (None, db)
  /\ set_requests_left user_id n db = Some db
  /\ buy_premium PREMIUM_DAYS user_id t db = db
  /\ update_photo_timestamp user_id t db = db
  /\ toggle_receive_target_flag user_id n db = db.
Proof.
  intros H.
  unfold update_user_mode, decrement_requests_left, decrement_targets_left,
    set_requests_left, buy_premium, update_photo_timestamp, toggle_receive_target_flag.
  rewrite H, !alter_unknown_user by exact H. repeat split.
Qed.

Lemma unknown_user_is_left_alone_witness :
  buy_premium 30 5 0 sample_db = sample_db
  /\ decrement_requests_left 5 3 sample_db = (None, sample_db).
Proof.
  destruct (unknown_user_is_left_alone 30 5 sample_db "2" 3 0 eq_refl)
    as (_ & Hdec & _ & _ & Hbuy & _).
  split; [exact Hbuy | exact Hdec].
Defined.

(** ** Decrements *)

Lemma decrement_requests_row_twice (n k : Z) (u : User) :
  0 <= n -> 0 <= k ->
  decrement_requests_row k (decrement_requests_row n u) = decrement_requests_row (n + k) u.
Proof.
  intros Hn Hk. unfold decrement_requests_row.
  destruct (0 <? requests_left u) eqn:E; cbn -[Z.max].
  - apply Z.ltb_lt in E.
    destruct (0 <? Z.max 0 (requests_left u - n)) eqn:E1; cbn -[Z.max];
      unfold set_requests; cbn -[Z.max]; f_equal.
    + apply Z.ltb_lt in E1. lia.
    + apply Z.ltb_ge in E1. lia.
  - reflexivity.
Qed.

(** X3: Two decrements of the requests in a row take off as much as one
    decrement by the sum: run one after the other, no decrement is lost
    and the floor of zero is hit at the same point. *)
Theorem decrement_requests_left_twice (user_id n k : Z) (db : DB) :
  0 <= n -> 0 <= k ->
  snd (decrement_requests_left user_id k (snd (decrement_requests_left user_id n db)))
  = snd (decrement_requests_left user_id (n + k) db).
Proof.
  intros Hn Hk. unfold decrement_requests_left. cbn [snd].
  destruct db as [us ns ps ims logs off]. unfold with_users. cbn. f_equal.
  apply map_eq. intros j.
  destruct (decide (user_id = j)) as [<-|Hne].
  - rewrite !lookup_alter_eq. destruct (us !! user_id) as [u|]; cbn; [|reflexivity].
    f_equal. apply decrement_requests_row_twice; assumption.
  - rewrite !lookup_alter_ne by exact Hne. reflexivity.
Qed.

Lemma decrement_requests_left_twice_witness :
  snd (decrement_requests_left 2 2 (snd (decrement_requests_left 2 2 sample_db)))
  = snd (decrement_requests_left 2 (2 + 2) sample_db).
Proof. apply decrement_requests_left_twice; lia. Defined.

(** X4: [decrement_targets_left] takes [min n targets_left] target credits
    off a known user whose counter is not negative and changes nothing
    else of the row; a counter that is already negative is not put back
    to 0 (as [decrement_requests_left] does for the requests): the row
    is left exactly as it is. *)
Theorem decrement_targets_left_spec (db : DB) (user_id n : Z) (u : User) :
  users db !! user_id = Some u ->
  0 <= n ->
  exists u',
    users (snd (decrement_targets_left user_id n db)) !! user_id = Some u'
    /\ requests_left u' = requests_left u
    /\ status u' = status u
    /\ (0 <= targets_left u ->
        targets_left u' = targets_left u - Z.min n (targets_left u)
        /\ 0 <= targets_left u')
    /\ (targets_left u < 0 -> u' = u).
Proof.
  intros Hu Hn. exists (decrement_targets_row n u).
  split; [apply lookup_user_alter_eq, Hu|].
  unfold decrement_targets_row.
  destruct (0 <? targets_left u) eqn:E; cbn -[Z.max Z.min].
  - apply Z.ltb_lt in E. repeat split; lia.
  - apply Z.ltb_ge in E. repeat split; lia.
Qed.

Lemma decrement_targets_left_spec_witness :
  exists u',
    users (snd (decrement_targets_left 1 6 sample_db)) !! 1 = Some u'
    /\ targets_left u' = 0.
Proof.
  destruct (decrement_targets_left_spec sample_db 1 6
              (mkUser "1" 1 "premium" 5 4 0 (Some 40)) eq_refl)
    as (u' & Hu' & _ & _ & Hpos & _); [lia|].
  exists u'. split; [exact Hu'|].
  destruct Hpos as [Ht _]; [cbn; lia|]. rewrite Ht. reflexivity.
Defined.

(** ** Purchases and the sweep *)

Lemma list_filter_filter {A : Type} (f g : A -> bool) (l : list A) :
  List.filter g (List.filter f l) = List.filter (fun x => f x && g x) l.
Proof.
  induction l as [|x l IH]; [reflexivity|]. cbn.
  destruct (f x); cbn; [destruct (g x)|]; rewrite ?IH; reflexivity.
Qed.

Lemma list_filter_all {A : Type} (f : A -> bool) (l : list A) :
  (forall x, In x l -> f x = true) -> List.filter f l = l.
Proof.
  induction l as [|x l IH]; intros H; [reflexivity|]. cbn.
  rewrite (H x (or_introl eq_refl)), IH; [reflexivity|].
  intros y Hy. apply H. right. exact Hy.
Qed.

(** The purchases that the loop over the users [ks] leaves in the table. *)
Lemma update_quotas_loop_kept (free_requests today : Z) (ks : list Z) (db : DB) :
  premium_purchases (fold_left (update_quotas_step free_requests today) ks db)
  = List.filter (fun p => negb (existsb (fun k => expired_for k today p) ks))
      (premium_purchases db).
Proof.
  revert db. induction ks as [|k ks IH]; intros db; cbn [fold_left existsb].
  - symmetry. apply list_filter_all. reflexivity.
  - rewrite IH. unfold update_quotas_step.
    cbn [with_users with_premium_purchases premium_purchases].
    rewrite list_filter_filter. apply filter_ext. intros p.
    rewrite negb_orb. reflexivity.
Qed.

Lemma expired_for_some_user (db : DB) (today : Z) (p : PremiumPurchase) :
  existsb (fun k => expired_for k today p) (map_to_list (users db)).*1 = true
  <-> is_Some (users db !! purchase_user_id p) /\ expiration_date p < today.
Proof.
  rewrite existsb_exists. split.
  - intros (k & Hk & Hex). unfold expired_for in Hex.
    apply andb_true_iff in Hex as [Hid Hlt].
    apply Z.eqb_eq in Hid. apply Z.ltb_lt in Hlt. subst k.
    split; [|exact Hlt].
    apply list_elem_of_In, list_elem_of_fmap in Hk as ([k u] & Hfst & Hin).
    cbn in Hfst. subst k. apply elem_of_map_to_list in Hin. eauto.
  - intros [[u Hu] Hlt]. exists (purchase_user_id p). split.
    + apply list_elem_of_In, list_elem_of_fmap. exists (purchase_user_id p, u).
      split; [reflexivity|]. apply elem_of_map_to_list, Hu.
    + unfold expired_for. rewrite Z.eqb_refl. apply Z.ltb_lt in Hlt. rewrite Hlt.
      reflexivity.
Qed.

Lemma update_user_quotas_kept (free_requests td now : Z) (db : DB) :
  premium_purchases (update_user_quotas free_requests td now db)
  = List.filter
      (fun p => negb (existsb (fun k => expired_for k (date now) p)
                        (map_to_list (users db)).*1))
      (premium_purchases db).
Proof.
  unfold update_user_quotas, log_scheduler_run.
  rewrite <- (update_quotas_loop_kept free_requests).
  destruct (last_entry _ _) as [t|]; [|reflexivity].
  destruct (_ <=? _); reflexivity.
Qed.

(** X5: The sweep deletes exactly the purchases that are past their
    expiration date and belong to a user of the [users] table: a purchase
    that is still valid, or whose user is not in the table, stays. *)
Theorem update_user_quotas_deletes_expired
    (free_requests td now : Z) (db : DB) (p : PremiumPurchase) :
  In p (premium_purchases (update_user_quotas free_requests td now db))
  <-> In p (premium_purchases db)
      /\ (users db !! purchase_user_id p = None \/ date now <= expiration_date p).
Proof.
  rewrite update_user_quotas_kept, filter_In, negb_true_iff.
  rewrite <- not_true_iff_false, expired_for_some_user.
  split; intros [Hin H]; (split; [exact Hin|]).
  - destruct (users db !! purchase_user_id p) as [u|] eqn:E; [|left; reflexivity].
    right. destruct (Z.le_gt_cases (date now) (expiration_date p)) as [Hle|Hgt];
      [exact Hle|].
    exfalso. apply H. split; [eauto | lia].
  - intros [[u Hu] Hlt]. destruct H as [H|H]; [congruence | lia].
Qed.

Lemma update_user_quotas_users_dom (free_requests td now : Z) (db : DB) (j : Z) :
  is_Some (users (update_user_quotas free_requests td now db) !! j)
  <-> is_Some (users db !! j).
Proof.
  rewrite update_user_quotas_users.
  destruct (users db !! j); cbn; split; intros [x Hx]; try discriminate; eauto.
Qed.

Lemma update_quotas_row_again (free_requests : Z) (active : list PremiumPurchase) (u : User) :
  update_quotas_row free_requests active (update_quotas_row free_requests active u)
  = update_quotas_row free_requests active u.
Proof. destruct active; reflexivity. Qed.

(** X6: Running the sweep a second time at the same instant changes neither
    the users nor the purchases: the first run already put every counter
    at the value prescribed by the valid purchases and removed every
    purchase it would remove. *)
Theorem update_user_quotas_idempotent (free_requests td td' now : Z) (db : DB) :
  let once := update_user_quotas free_requests td now db in
  let twice := update_user_quotas free_requests td' now once in
  users twice = users once /\ premium_purchases twice = premium_purchases once.
Proof.
  intros once twice. split.
  - apply map_eq. intros j. unfold twice.
    rewrite update_user_quotas_users.
    assert (active_purchases j (date now) (premium_purchases once)
            = active_purchases j (date now) (premium_purchases db)) as ->.
    { unfold once, update_user_quotas.
      assert (forall d, premium_purchases
                          (log_scheduler_run "update_user_quotas" "success"
                             (Some "Completed updating user quotas") td now d)
                        = premium_purchases d) as ->.
      { intros d. unfold log_scheduler_run.
        destruct (last_entry _ _) as [t|]; [|reflexivity].
        destruct (_ <=? _); reflexivity. }
      apply update_quotas_loop_active. }
    unfold once. rewrite update_user_quotas_users.
    destruct (users db !! j) as [u|]; cbn; [|reflexivity].
    rewrite update_quotas_row_again. reflexivity.
  - unfold twice. rewrite update_user_quotas_kept.
    apply list_filter_all. intros p Hp.
    apply negb_true_iff, not_true_iff_false. intros Hex.
    apply expired_for_some_user in Hex as [Hsome Hlt].
    apply update_user_quotas_users_dom in Hsome.
    unfold once in Hp. rewrite update_user_quotas_kept in Hp.
    apply filter_In in Hp as [_ Hkept].
    apply negb_true_iff, not_true_iff_false in Hkept. apply Hkept.
    apply expired_for_some_user. split; assumption.
Qed.

(** *** Buying premium *)

Lemma buy_many_known (PREMIUM_DAYS user_id : Z) (ts : list Z) (db : DB) (u : User) :
  users db !! user_id = Some u ->
  exists u',
    users (buy_many PREMIUM_DAYS user_id ts db) !! user_id = Some u'
    /\ (ts <> [] -> status u' = "premium")
    /\ premium_purchases (buy_many PREMIUM_DAYS user_id ts db)
       = (premium_purchases db
            ++ map (fun t => mkPremiumPurchase user_id (date t)
                               (date (t + timedelta_days PREMIUM_DAYS)) 10 100) ts)%list.
Proof.
  revert db u. induction ts as [|t ts IH]; intros db u Hu; cbn [buy_many fold_left map].
  - exists u. rewrite app_nil_r. repeat split; [exact Hu | congruence].
  - destruct (IH (buy_premium PREMIUM_DAYS user_id t db)
                (buy_premium_row (t + timedelta_days PREMIUM_DAYS) u))
      as (u' & Hu' & Hst & Hps).
    { unfold buy_premium. rewrite Hu. apply lookup_user_alter_eq. exact Hu. }
    exists u'. split; [exact Hu'|]. split.
    + intros _. destruct ts as [|t' ts']; [|apply Hst; congruence].
      cbn in Hu'. unfold buy_premium in Hu'. rewrite Hu in Hu'.
      rewrite (lookup_user_alter_eq _ _ _ u) in Hu' by exact Hu.
      injection Hu' as <-. reflexivity.
    + unfold buy_many in Hps. rewrite Hps. unfold buy_premium. rewrite Hu.
      cbn [with_users with_premium_purchases premium_purchases].
      rewrite <- app_assoc. reflexivity.
Qed.

Lemma fold_add_from (l : list Z) (acc : Z) :
  fold_left Z.add l acc = acc + fold_left Z.add l 0.
Proof.
  revert acc. induction l as [|x l IH]; intros acc; cbn [fold_left]; [lia|].
  rewrite (IH (acc + x)), (IH (0 + x)). lia.
Qed.

Lemma sum_app (l1 l2 : list Z) : sum (l1 ++ l2)%list = sum l1 + sum l2.
Proof. unfold sum. rewrite fold_left_app. apply fold_add_from. Qed.

Lemma sum_constant (A : Type) (f : A -> Z) (c : Z) (l : list A) :
  (forall x, f x = c) -> sum (map f l) = c * Z.of_nat (length l).
Proof.
  intros H. induction l as [|x l IH]; [cbn; lia|].
  change (map f (x :: l)) with ([f x] ++ map f l)%list.
  rewrite sum_app, IH, H. cbn [length]. unfold sum. cbn. lia.
Qed.

(** X7: Purchases add up: when a known user buys premium any number of times
    (at least once) and the job runs while all of these purchases are
    still valid, the user is premium and holds 100 requests and 10 target
    credits for each of them, on top of the increments of the purchases
    that were valid before; what was used up in between is given back. *)
Theorem purchases_add_up
    (PREMIUM_DAYS free_requests td now user_id : Z) (ts : list Z) (db : DB) (u : User) :
  users db !! user_id = Some u ->
  ts <> [] ->
  Forall (fun t => date now <= date (t + timedelta_days PREMIUM_DAYS)) ts ->
  let earlier := active_purchases user_id (date now) (premium_purchases db) in
  exists u',
    users (update_user_quotas free_requests td now
             (buy_many PREMIUM_DAYS user_id ts db)) !! user_id = Some u'
    /\ status u' = "premium"
    /\ requests_left u'
       = sum (map request_increment earlier) + 100 * Z.of_nat (length ts)
    /\ targets_left u'
       = sum (map targets_increment earlier) + 10 * Z.of_nat (length ts).
Proof.
  intros Hu Hne Hvalid earlier.
  destruct (buy_many_known PREMIUM_DAYS user_id ts db u Hu) as (u1 & Hu1 & Hst & Hps).
  set (bought := map (fun t => mkPremiumPurchase user_id (date t)
                                 (date (t + timedelta_days PREMIUM_DAYS)) 10 100) ts)
    in Hps.
  assert (active_purchases user_id (date now)
            (premium_purchases (buy_many PREMIUM_DAYS user_id ts db))
          = (earlier ++ bought)%list) as Hact.
  { rewrite Hps. unfold active_purchases at 1. rewrite List.filter_app. f_equal.
    apply list_filter_all. intros p Hp. unfold bought in Hp.
    apply in_map_iff in Hp as (t & <- & Ht).
    rewrite Forall_forall in Hvalid. specialize (Hvalid t).
    unfold active_for. cbn. rewrite Z.eqb_refl. apply Z.leb_le, Hvalid.
    apply list_elem_of_In, Ht. }
  eexists. split; [apply update_user_quotas_lookup, Hu1|].
  rewrite Hact.
  assert (bought <> []) as Hb by (unfold bought; destruct ts; cbn; congruence).
  destruct (earlier ++ bought)%list as [|p ps] eqn:E.
  { apply app_eq_nil in E as [_ E]. contradiction. }
  cbn [update_quotas_row status requests_left targets_left set_targets set_requests].
  rewrite <- E.
  rewrite !map_app, !sum_app.
  unfold bought. rewrite !map_map. cbn [request_increment targets_increment].
  rewrite (sum_constant Z (fun _ => 100) 100), (sum_constant Z (fun _ => 10) 10)
    by reflexivity.
  repeat split. apply Hst, Hne.
Qed.

Lemma purchases_add_up_witness :
  exists u',
    users (update_user_quotas 10 24 (timedelta_days 20)
             (buy_many 30 1 [timedelta_days 12; timedelta_days 15] sample_db)) !! 1
    = Some u'
    /\ status u' = "premium"
    /\ requests_left u' = 300
    /\ targets_left u' = 30.
Proof.
  destruct (purchases_add_up 30 10 24 (timedelta_days 20) 1
              [timedelta_days 12; timedelta_days 15] sample_db
              (mkUser "1" 1 "premium" 5 4 0 (Some 40)) eq_refl)
    as (u' & Hu' & Hs & Hr & Ht).
  - discriminate.
  - repeat constructor; vm_compute; discriminate.
  - exists u'. split; [exact Hu'|]. split; [exact Hs|].
    split; [rewrite Hr | rewrite Ht]; reflexivity.
Defined.

(** X8: [/buy_premium]: the sender, signed up on the spot if new, keeps the
    requests and target credits held so far and gets 100 and 10 on top;
    the tier becomes premium, the expiration becomes the day that lies
    [PREMIUM_DAYS] days ahead, one purchase row running out on that day
    is appended, and the reply states the new number of requests. *)
Theorem set_user_to_premium_adds
    (PREMIUM_DAYS import_time user_id : Z) (user : Profile) (now : Z) (db : DB) :
  let before := default (new_user import_time "1") (users db !! user_id) in
  let db' := fst (set_user_to_premium PREMIUM_DAYS import_time user_id user now db) in
  snd (set_user_to_premium PREMIUM_DAYS import_time user_id user now db)
  = [Answer ("Congratulations! You got premium status!
You have " ++ str (requests_left before + 100) ++ " attempts left")]
  /\ (exists u',
        users db' !! user_id = Some u'
        /\ status u' = "premium"
        /\ requests_left u' = requests_left before + 100
        /\ targets_left u' = targets_left before + 10
        /\ premium_expiration u' = Some (date (now + timedelta_days PREMIUM_DAYS))
        /\ mode u' = mode before
        /\ receive_target_flag u' = receive_target_flag before
        /\ last_photo_sent_timestamp u' = last_photo_sent_timestamp before)
  /\ premium_purchases db'
     = (premium_purchases db
          ++ [mkPremiumPurchase user_id (date now)
                (date (now + timedelta_days PREMIUM_DAYS)) 10 100])%list
  /\ (forall j, j <> user_id -> users db' !! j = users db !! j).
Proof.
  intros before db'.
  set (db0 := exist_user_check import_time user_id user db).
  assert (users db0 !! user_id = Some before) as H0
    by apply exist_user_check_lookup.
  assert (premium_purchases db0 = premium_purchases db) as Hp0
    by apply exist_user_check_rest.
  assert (forall j, j <> user_id -> users db0 !! j = users db !! j) as Hother.
  { intros j Hj. apply exist_user_check_other, Hj. }
  assert (set_user_to_premium PREMIUM_DAYS import_time user_id user now db
          = (buy_premium PREMIUM_DAYS user_id now db0,
             [Answer ("Congratulations! You got premium status!
You have " ++ str (requests_left before + 100) ++ " attempts left")])) as E.
  { unfold set_user_to_premium. fold db0. unfold fetch_user_data, buy_premium.
    rewrite H0.
    rewrite (lookup_user_alter_eq _ _ _ before)
      by (cbn [with_premium_purchases users]; exact H0).
    reflexivity. }
  unfold db'. rewrite E. cbn [fst snd]. split; [reflexivity|].
  unfold buy_premium. rewrite H0. split; [|split].
  - eexists. split.
    + apply lookup_user_alter_eq. cbn [with_premium_purchases users]. exact H0.
    + repeat split.
  - cbn [with_users with_premium_purchases premium_purchases]. rewrite Hp0. reflexivity.
  - intros j Hj. rewrite lookup_user_alter_ne by congruence.
    cbn [with_premium_purchases users]. apply Hother, Hj.
Qed.

(** ** The run-log *)

Lemma last_entry_in (job : string) (logs : list SchedulerLog) (t : Z) :
  last_entry job logs = Some t ->
  exists l, In l logs /\ job_name l = job /\ run_datetime l = t.
Proof.
  revert t. induction logs as [|l logs IH]; intros t; cbn [last_entry]; [discriminate|].
  destruct (String.eqb (job_name l) job) eqn:E.
  - apply String.eqb_eq in E.
    destruct (last_entry job logs) as [t'|].
    + intros [= <-]. destruct (Z.max_spec (run_datetime l) t') as [[_ ->]|[_ ->]].
      * destruct (IH t' eq_refl) as (l' & Hin & Hj & Ht).
        exists l'. repeat split; try assumption. right. exact Hin.
      * exists l. repeat split; try assumption. left. reflexivity.
    + intros [= <-]. exists l. repeat split; try assumption. left. reflexivity.
  - intros H. destruct (IH t H) as (l' & Hin & Hj & Ht).
    exists l'. repeat split; try assumption. right. exact Hin.
Qed.

Lemma last_entry_snoc (job : string) (logs : list SchedulerLog) (r : SchedulerLog) :
  job_name r = job ->
  last_entry job (logs ++ [r])%list
  = Some (match last_entry job logs with
          | None => run_datetime r
          | Some t => Z.max t (run_datetime r)
          end).
Proof.
  intros Hr. induction logs as [|l logs IH]; cbn [app last_entry].
  - apply String.eqb_eq in Hr. rewrite Hr. reflexivity.
  - rewrite IH. destruct (String.eqb (job_name l) job); [|reflexivity].
    destruct (last_entry job logs) as [t|]; f_equal; lia.
Qed.

(** X9: [log_scheduler_run] only ever appends, at most one record, stamped
    by the database with the local clock less the offset from UTC, and
    leaves the other tables alone.  On a log that holds no record of the
    job with a later stamp, a call at [now] that does write a record
    silences the calls for that job up to the moment when the local clock
    reads [hour_delay] hours past that stamp: a call at [now'] is silent
    if [now' - now] is less than [hour_delay] hours less the offset, and
    writes again otherwise.  So two records are spaced by the interval
    on a host that runs on UTC, and if the local clock is ahead of UTC by
    the interval or more, no later call is silenced at all. *)
Theorem log_scheduler_run_spacing
    (job st st' : string) (det det' : option string) (hour_delay now now' : Z) (db : DB) :
  let db1 := log_scheduler_run job st det hour_delay now db in
  let stamp := now - utc_offset db in
  (users db1 = users db /\ premium_purchases db1 = premium_purchases db
   /\ image_names db1 = image_names db
   /\ (scheduler_logs db1 = scheduler_logs db
       \/ scheduler_logs db1
          = (scheduler_logs db ++ [mkSchedulerLog job stamp st det])%list))
  /\ ((forall l, In l (scheduler_logs db) -> job_name l = job -> run_datetime l <= stamp) ->
      scheduler_logs db1 <> scheduler_logs db ->
      (now' - now < timedelta_hours hour_delay - utc_offset db ->
       log_scheduler_run job st' det' hour_delay now' db1 = db1)
      /\ (timedelta_hours hour_delay - utc_offset db <= now' - now ->
          scheduler_logs (log_scheduler_run job st' det' hour_delay now' db1)
          = (scheduler_logs db1
               ++ [mkSchedulerLog job (now' - utc_offset db) st' det'])%list)
      /\ (utc_offset db = 0 -> now' - now < timedelta_hours hour_delay ->
          log_scheduler_run job st' det' hour_delay now' db1 = db1)
      /\ (timedelta_hours hour_delay <= utc_offset db -> now <= now' ->
          scheduler_logs (log_scheduler_run job st' det' hour_delay now' db1)
          <> scheduler_logs db1)).
Proof.
  intros db1 stamp. split.
  - unfold db1, stamp, log_scheduler_run.
    destruct (last_entry job (scheduler_logs db)) as [t|];
      [destruct (timedelta_hours hour_delay <=? now - t)|];
      repeat split; auto.
  - intros Hpast Hwrote.
    assert (scheduler_logs db1
            = (scheduler_logs db ++ [mkSchedulerLog job stamp st det])%list) as Hlogs.
    { unfold db1, stamp, log_scheduler_run in *.
      destruct (last_entry job (scheduler_logs db)) as [t|];
        [destruct (timedelta_hours hour_delay <=? now - t)|];
        try reflexivity. contradiction. }
    assert (last_entry job (scheduler_logs db1) = Some stamp) as Hlast.
    { rewrite Hlogs, last_entry_snoc by reflexivity. cbn [run_datetime].
      destruct (last_entry job (scheduler_logs db)) as [t|] eqn:E; [|reflexivity].
      destruct (last_entry_in job _ t E) as (l & Hin & Hj & Ht).
      specialize (Hpast l Hin Hj). f_equal. lia. }
    assert (utc_offset db1 = utc_offset db) as Hoff by apply log_scheduler_run_rest.
    assert (now' - now < timedelta_hours hour_delay - utc_offset db ->
            log_scheduler_run job st' det' hour_delay now' db1 = db1) as Hsilent.
    { intros Hlt. unfold log_scheduler_run at 1. rewrite Hlast.
      replace (timedelta_hours hour_delay <=? now' - stamp) with false; [reflexivity|].
      symmetry. apply Z.leb_gt. unfold stamp. lia. }
    assert (timedelta_hours hour_delay - utc_offset db <= now' - now ->
            scheduler_logs (log_scheduler_run job st' det' hour_delay now' db1)
            = (scheduler_logs db1
                 ++ [mkSchedulerLog job (now' - utc_offset db) st' det'])%list) as Hloud.
    { intros Hle. rewrite log_scheduler_run_logs, Hlast, Hoff.
      replace (timedelta_hours hour_delay <=? now' - stamp) with true; [reflexivity|].
      symmetry. apply Z.leb_le. unfold stamp. lia. }
    split; [exact Hsilent|]. split; [exact Hloud|]. split.
    + intros H0 Hlt. apply Hsilent. lia.
    + intros Hahead Hle. rewrite Hloud by lia.
      intros Heq. apply (f_equal (@length SchedulerLog)) in Heq.
      rewrite length_app in Heq. cbn [length] in Heq. lia.
Qed.

Lemma log_scheduler_run_spacing_witness :
  log_scheduler_run "update_user_quotas" "success" None 24
    (1000 + timedelta_hours 25)
    (log_scheduler_run "update_user_quotas" "success" None 24
       (1000 + timedelta_hours 24) sample_db)
  = log_scheduler_run "update_user_quotas" "success" None 24
      (1000 + timedelta_hours 24) sample_db
  /\ scheduler_logs
       (log_scheduler_run "update_user_quotas" "success" None 2
          (1000 + timedelta_hours 5)
          (log_scheduler_run "update_user_quotas" "success" None 2
             (1000 + timedelta_hours 5) sample_db_utc3))
     <> scheduler_logs
          (log_scheduler_run "update_user_quotas" "success" None 2
             (1000 + timedelta_hours 5) sample_db_utc3).
Proof.
  destruct (log_scheduler_run_spacing "update_user_quotas" "success" "success" None None
              24 (1000 + timedelta_hours 24) (1000 + timedelta_hours 25) sample_db)
    as [_ H].
  destruct (log_scheduler_run_spacing "update_user_quotas" "success" "success" None None
              2 (1000 + timedelta_hours 5) (1000 + timedelta_hours 5) sample_db_utc3)
    as [_ H'].
  split.
  - apply H.
    + intros l [<-|[]] _. vm_compute. discriminate.
    + vm_compute. discriminate.
    + reflexivity.
    + reflexivity.
  - apply H'.
    + intros l [<-|[]] _. vm_compute. discriminate.
    + vm_compute. discriminate.
    + vm_compute. discriminate.
    + lia.
Defined.

(** * Further properties of the handlers *)

(** ** Photos that are turned down or lost *)

(** X10: A known user without requests left gets the out-of-attempts reply,
    premium or not, and a known free user who still has requests but sent
    the last photo less than 20 seconds ago is told how long to wait; the
    announced wait is between 1 and 20 seconds when the stored timestamp
    is not in the future.  In both cases the only thing written is the
    sign-up check at the start of the handler, which puts the names the
    sender now has into the name columns of the row: mode, flag, tier,
    counters, timestamp and expiration of every user, the names of the
    others, the purchases, the image rows and the run-log stay as they
    were, and so does the whole store when the stored names are already
    the sender's. *)
Theorem handle_image_turns_down
    (import_time : Z) (token cwd : string) (m : Photo) (db : DB) (user : User) :
  users db !! from_user m = Some user ->
  let db0 := exist_user_check import_time (from_user m) (profile m) db in
  (users db0 = users db
   /\ user_names db0 = <[from_user m := names_of (profile m)]> (user_names db)
   /\ premium_purchases db0 = premium_purchases db
   /\ image_names db0 = image_names db
   /\ scheduler_logs db0 = scheduler_logs db
   /\ (user_names db !! from_user m = Some (names_of (profile m)) -> db0 = db))
  /\ (requests_left user <= 0 ->
      handle_image import_time token cwd m db
      = (db0, [Answer "Sorry, you are out of attempts. Try again later"]))
  /\ (0 < requests_left user ->
      is_premium user = false ->
      now m - last_photo_sent_timestamp user < 20 ->
      handle_image import_time token cwd m db
      = (db0, [Answer ("Sorry, too many requests. Please wait "
                         ++ str (20 - (now m - last_photo_sent_timestamp user))
                         ++ " more seconds")])
      /\ (last_photo_sent_timestamp user <= now m ->
          1 <= 20 - (now m - last_photo_sent_timestamp user) <= 20)).
Proof.
  intros Hu db0.
  assert (users db0 = users db) as E0
    by (apply (exist_user_check_users_known import_time _ _ _ user), Hu).
  split; [|split].
  - split; [exact E0|]. split; [apply exist_user_check_names|].
    destruct (exist_user_check_rest import_time (from_user m) (profile m) db)
      as (Hp & Hi & Hl & _).
    split; [exact Hp|]. split; [exact Hi|]. split; [exact Hl|].
    intros Hn. apply (exist_user_check_settled import_time _ _ _ user); assumption.
  - intros Hr. unfold handle_image, fetch_user_data. fold db0. rewrite E0, Hu.
    unfold check_limit. apply Z.leb_le in Hr. rewrite Hr. reflexivity.
  - intros Hr Hp Ht. split; [|lia].
    unfold handle_image, fetch_user_data. fold db0. rewrite E0, Hu.
    unfold check_limit. apply Z.leb_gt in Hr. rewrite Hr. cbn [negb].
    unfold check_time_limit, timedelta_seconds. rewrite Hp.
    apply Z.ltb_lt in Ht. rewrite Ht. reflexivity.
Qed.

Lemma handle_image_turns_down_witness :
  snd (handle_image 0 "TOKEN" "/srv/bot" (single_photo 2 15 Failed) sample_db)
  = [Answer "Sorry, too many requests. Please wait 5 more seconds"]
  /\ users (fst (handle_image 0 "TOKEN" "/srv/bot" (single_photo 2 15 Failed) sample_db))
     = users sample_db
  /\ user_names (fst (handle_image 0 "TOKEN" "/srv/bot" (single_photo 2 15 Failed)
                        sample_db)) !! 2
     = Some (mkNames "" "Mary_Ann" "Lee").
Proof.
  destruct (handle_image_turns_down 0 "TOKEN" "/srv/bot" (single_photo 2 15 Failed)
              sample_db (mkUser "3" 0 "free" 3 0 0 None) eq_refl)
    as ((Husers & Hnames & _) & _ & H).
  destruct H as [H _]; [reflexivity | reflexivity | reflexivity |].
  rewrite H. cbn [fst snd]. split; [reflexivity|]. split; [exact Husers|].
  rewrite Hnames. reflexivity.
Defined.

(** X11: The photos of somebody the bot has not seen yet are measured against
    the instant at which the storage module was imported, because that is
    the default of the timestamp column: during the first 20 seconds
    after the bot started such a sender is signed up, with the names of
    the message and the column defaults, but the photo is turned down
    with the wait reply. *)
Theorem first_photo_after_start
    (import_time : Z) (token cwd : string) (m : Photo) (db : DB) :
  users db !! from_user m = None ->
  now m - import_time < 20 ->
  handle_image import_time token cwd m db
  = (with_user_names (insert (from_user m) (names_of (profile m)))
       (with_users (insert (from_user m) (mkUser "1" 0 "free" 10 0 import_time None)) db),
     [Answer ("Sorry, too many requests. Please wait "
                ++ str (20 - (now m - import_time)) ++ " more seconds")]).
Proof.
  intros Hu Ht. unfold handle_image, fetch_user_data, exist_user_check, insert_user.
  rewrite Hu. cbn [with_users with_user_names users]. rewrite lookup_insert_eq.
  unfold check_limit. cbn [new_user requests_left]. cbn [Z.leb Z.compare negb].
  unfold check_time_limit, timedelta_seconds. cbn [new_user is_premium status
    last_photo_sent_timestamp].
  apply Z.ltb_lt in Ht.
  replace (String.eqb "free" "premium") with false by reflexivity.
  rewrite Ht. reflexivity.
Qed.

Lemma first_photo_after_start_witness :
  snd (handle_image 100 "TOKEN" "/srv/bot" (single_photo 9 112 Failed) empty_db)
  = [Answer "Sorry, too many requests. Please wait 8 more seconds"].
Proof.
  rewrite (first_photo_after_start 100 "TOKEN" "/srv/bot" (single_photo 9 112 Failed)
             empty_db); [reflexivity | reflexivity | reflexivity].
Defined.

(** X12: A photo that passed both checks but cannot be fetched (the download
    raises, answers with a status other than 200, or delivers bytes that
    do not decode) never reaches the worker and costs no request; yet the
    photo timestamp has already been set to now and the image row has been
    written, so the sender's 20 second wait starts all the same. *)
Theorem download_failure
    (import_time : Z) (token cwd : string) (m : Photo) (db : DB) (user : User) :
  users (exist_user_check import_time (from_user m) (profile m) db)
    !! from_user m = Some user ->
  0 < requests_left user ->
  fst (check_time_limit user (now m) 20) = true ->
  (download m = Failed
   \/ (exists code b, download m = Status code b /\ code <> 200)
   \/ download m = Status 200 false) ->
  let db' := fst (handle_image import_time token cwd m db) in
  let out := snd (handle_image import_time token cwd m db) in
  db' = store_at_try import_time cwd m user db
  /\ (forall url path md, ~ In (Post url path md) out)
  /\ photos out = []
  /\ (exists reply,
        last_action out = Some (Answer reply)
        /\ (reply = "Failed to download image. Please try again"
            \/ reply = "Sorry must have been an error. Try again later."))
  /\ users db' !! from_user m = Some (set_last_photo_sent_timestamp (now m) user)
  /\ image_names db'
     = (image_names db
          ++ [mkImageName (from_user m) (input_path_of cwd m user) None (now m)])%list.
Proof.
  intros Hu Hr Ht Hd db' out.
  pose proof (handle_image_passed import_time token cwd m db user Hu Hr Ht) as E.
  unfold handle_image_try in E.
  assert (db' = store_at_try import_time cwd m user db
          /\ (forall url path md, ~ In (Post url path md) out)
          /\ photos out = []
          /\ (exists reply,
                last_action out = Some (Answer reply)
                /\ (reply = "Failed to download image. Please try again"
                    \/ reply = "Sorry must have been an error. Try again later.")))
    as (Hdb & Hpost & Hph & Hreply).
  { unfold db', out.
    destruct Hd as [Hd|[(code & b & Hd & Hcode)|Hd]]; rewrite Hd in E.
    - rewrite E. cbn [fst snd app]. repeat split.
      + intros url path md [H|[H|[]]]; discriminate H.
      + eexists. split; [reflexivity|]. right. reflexivity.
    - apply Z.eqb_neq in Hcode. rewrite Hcode in E. cbn [negb] in E.
      rewrite E. cbn [fst snd]. repeat split.
      + intros url path md [H|[H|[]]]; discriminate H.
      + eexists. split; [reflexivity|]. left. reflexivity.
    - cbn [Z.eqb Pos.eqb negb] in E. rewrite E. cbn [fst snd app]. repeat split.
      + intros url path md [H|[H|[H|[]]]]; discriminate H.
      + eexists. split; [reflexivity|]. right. reflexivity. }
  split; [exact Hdb|]. split; [exact Hpost|]. split; [exact Hph|].
  split; [exact Hreply|]. rewrite Hdb. split.
  - rewrite store_at_try_users by exact Hu.
    destruct (decide (from_user m = from_user m)); [reflexivity|congruence].
  - apply store_at_try_images.
Qed.

Lemma download_failure_witness :
  requests_left
    <$> users (fst (handle_image 0 "TOKEN" "/srv/bot"
                      (mkPhoto 2 a_sender None 500 "photos/file_9.jpg" 77
                         (Status 404 false) Failed nobody_else) sample_db)) !! 2 = Some 3
  /\ last_photo_sent_timestamp
       <$> users (fst (handle_image 0 "TOKEN" "/srv/bot"
                         (mkPhoto 2 a_sender None 500 "photos/file_9.jpg" 77
                            (Status 404 false) Failed nobody_else) sample_db)) !! 2
     = Some 500.
Proof.
  destruct (download_failure 0 "TOKEN" "/srv/bot"
              (mkPhoto 2 a_sender None 500 "photos/file_9.jpg" 77 (Status 404 false)
                 Failed nobody_else) sample_db (mkUser "3" 0 "free" 3 0 0 None)
              eq_refl eq_refl eq_refl)
    as (_ & _ & _ & _ & Hrow & _).
  - right. left. exists 404, false. split; [reflexivity | discriminate].
  - cbn [from_user now] in Hrow. rewrite Hrow. split; reflexivity.
Defined.

(** X13: When the image table already holds a row with the sender's id and the
    very file name that [generate_filename] picked, the row logged for the
    new photo makes two of them, [update_image_entry] raises, and a worker
    answer of 200 is thrown away: the user gets the apology, no output is
    sent, no request is taken and no row receives the outputs. *)
Theorem reused_file_name
    (import_time : Z) (token cwd : string) (m : Photo) (db : DB) (user : User)
    (outs : list string) :
  users (exist_user_check import_time (from_user m) (profile m) db)
    !! from_user m = Some user ->
  0 < requests_left user ->
  fst (check_time_limit user (now m) 20) = true ->
  download m = Status 200 true ->
  is_premium user && flag_on user = false ->
  worker m = Status 200 (Some outs) ->
  List.filter (image_entry_matches (from_user m) (input_path_of cwd m user))
    (image_names db) <> [] ->
  handle_image import_time token cwd m db
  = (store_at_try import_time cwd m user db,
     [ Get ("https://api.telegram.org/file/bot" ++ token ++ "/" ++ file_path m);
       Answer "Image received. Processing...";
       Post face_extraction_url (input_path_of cwd m user) (mode user);
       Answer "Sorry must have been an error. Try again later." ]).
Proof.
  intros Hu Hr Ht Hd Hnt Hw Hold.
  rewrite (handle_image_passed import_time token cwd m db user Hu Hr Ht).
  unfold handle_image_try. rewrite Hd. cbn [Z.eqb negb Pos.eqb].
  unfold target_image_check. rewrite Hnt, Hw. cbn [Z.eqb negb Pos.eqb].
  set (db2 := store_at_try import_time cwd m user db).
  assert (users db2 !! from_user m = Some (set_last_photo_sent_timestamp (now m) user))
    as Hrow.
  { unfold db2. rewrite store_at_try_users by exact Hu.
    destruct (decide (from_user m = from_user m)); [reflexivity|congruence]. }
  unfold log_output_image_data. unfold db2 at 1 2.
  rewrite (store_at_try_settled import_time cwd m user db Hu). fold db2.
  unfold update_image_entry. unfold db2 at 1. rewrite store_at_try_images.
  rewrite List.filter_app. cbn [List.filter]. rewrite image_entry_matches_refl.
  destruct (List.filter _ (image_names db)) as [|e [|e' es]]; [contradiction| |];
    reflexivity.
Qed.

Lemma reused_file_name_witness :
  photos
    (snd (handle_image 0 "TOKEN" "/srv/bot"
            (single_photo 1 500 (Status 200 (Some three_outputs)))
            (with_image_names
               (fun _ => [mkImageName 1 "/srv/bot/temp/original/img_4242.png" None 3])
               last_request_db)))
  = [].
Proof.
  rewrite (reused_file_name 0 "TOKEN" "/srv/bot"
             (single_photo 1 500 (Status 200 (Some three_outputs)))
             (with_image_names
                (fun _ => [mkImageName 1 "/srv/bot/temp/original/img_4242.png" None 3])
                last_request_db)
             (mkUser "3" 0 "free" 1 0 0 None) three_outputs
             eq_refl eq_refl eq_refl eq_refl eq_refl eq_refl).
  - reflexivity.
  - vm_compute. discriminate.
Defined.

(** ** What a photo can change *)

Lemma only_requests_spent_refl (user_id : Z) (db : DB) : only_requests_spent user_id db db.
Proof.
  repeat split. intros u Hu. exists u. repeat split; [exact Hu | lia].
Qed.

Lemma only_requests_spent_trans (user_id : Z) (db1 db2 db3 : DB) :
  only_requests_spent user_id db1 db2 ->
  only_requests_spent user_id db2 db3 ->
  only_requests_spent user_id db1 db3.
Proof.
  intros (Hp & Hl & Ho & Hu) (Hp' & Hl' & Ho' & Hu').
  split; [congruence|]. split; [congruence|]. split.
  - intros j Hj. rewrite Ho', Ho by exact Hj. reflexivity.
  - intros u E. destruct (Hu u E) as (u2 & E2 & Hs & Ht & He & Hr).
    destruct (Hu' u2 E2) as (u3 & E3 & Hs' & Ht' & He' & Hr').
    exists u3. repeat split; try congruence. lia.
Qed.

Lemma only_requests_spent_alter (f : User -> User) (user_id : Z) (db : DB) :
  (forall u, users db !! user_id = Some u ->
             status (f u) = status u /\ targets_left (f u) = targets_left u
             /\ premium_expiration (f u) = premium_expiration u
             /\ requests_left (f u) <= requests_left u) ->
  only_requests_spent user_id db (with_users (alter f user_id) db).
Proof.
  intros Hf. repeat split.
  - intros j Hj. apply lookup_user_alter_ne. congruence.
  - intros u Hu. exists (f u). split; [apply lookup_user_alter_eq, Hu|].
    destruct (Hf u Hu) as (? & ? & ? & ?). repeat split; assumption.
Qed.

Lemma only_requests_spent_images (f : list ImageName -> list ImageName) (user_id : Z)
    (db : DB) :
  only_requests_spent user_id db (with_image_names f db).
Proof.
  repeat split. intros u Hu. exists u. repeat split; [exact Hu | lia].
Qed.

Lemma only_requests_spent_created (import_time user_id : Z) (user : Profile) (db db' : DB) :
  only_requests_spent user_id (exist_user_check import_time user_id user db) db' ->
  premium_purchases db' = premium_purchases db
  /\ scheduler_logs db' = scheduler_logs db
  /\ (forall j, j <> user_id -> users db' !! j = users db !! j).
Proof.
  intros (Hp & Hl & Ho & _).
  destruct (exist_user_check_rest import_time user_id user db) as (Hp0 & _ & Hl0 & _).
  split; [congruence|]. split; [congruence|].
  intros j Hj. rewrite Ho by exact Hj. apply exist_user_check_other, Hj.
Qed.

(** The sign-up check of a known sender spends nothing. *)
Lemma only_requests_spent_ensure (import_time user_id : Z) (user : Profile) (db : DB)
    (row : User) :
  users db !! user_id = Some row ->
  only_requests_spent user_id db (exist_user_check import_time user_id user db).
Proof.
  intros Hrow.
  destruct (exist_user_check_rest import_time user_id user db) as (Hp & _ & Hl & _).
  split; [exact Hp|]. split; [exact Hl|].
  rewrite (exist_user_check_users_known import_time user_id user db row Hrow).
  split; [reflexivity|].
  intros u Hu. exists u. repeat split; [exact Hu | lia].
Qed.

(** With nobody else at the store the loop hands back the store it got. *)
Lemma send_outputs_alone_store (m : Photo) :
  alone m ->
  forall paths i user db, snd (fst (send_outputs m i paths user db)) = db.
Proof.
  intros Halone paths. induction paths as [|p ps IH]; intros i user db;
    cbn [send_outputs]; [reflexivity|].
  rewrite Halone. destruct (fetch_user_data (from_user m) db) as [row|]; [|reflexivity].
  unfold check_limit. destruct (requests_left row <=? 0); [reflexivity|].
  specialize (IH (S i) row db).
  destruct (send_outputs m (S i) ps row db) as [[[ex u'] db'] out]. exact IH.
Qed.

Lemma update_image_entry_users user_id input outs now (db db' : DB) :
  update_image_entry user_id input outs now db = Some db' ->
  users db' = users db /\ premium_purchases db' = premium_purchases db
  /\ scheduler_logs db' = scheduler_logs db.
Proof.
  unfold update_image_entry.
  destruct (List.filter _ _) as [|e [|e' es]]; intros [= <-]; repeat split.
Qed.

Lemma handle_image_try_spends (import_time : Z) (token : string) (m : Photo)
    (user row : User) (input_path : string) (db : DB) :
  alone m ->
  users db !! from_user m = Some row ->
  0 < requests_left row ->
  only_requests_spent (from_user m) db
    (store_of (handle_image_try import_time token m user input_path db)).
Proof.
  intros Halone Hrow Hr. unfold handle_image_try.
  destruct (download m) as [code decodes|]; [|apply only_requests_spent_refl].
  destruct (negb (code =? 200)); [apply only_requests_spent_refl|].
  destruct (negb decodes); [apply only_requests_spent_refl|].
  unfold target_image_check.
  destruct (is_premium user && flag_on user).
  { cbn [store_of]. unfold toggle_receive_target_flag, update_user_mode.
    eapply only_requests_spent_trans; apply only_requests_spent_alter;
      intros u _; cbn; repeat split; lia. }
  destruct (worker m) as [wcode body|]; [|apply only_requests_spent_refl].
  destruct (negb (wcode =? 200)); [apply only_requests_spent_refl|].
  destruct body as [image_paths|]; [|apply only_requests_spent_refl].
  unfold log_output_image_data.
  pose proof (only_requests_spent_ensure import_time (from_user m) (profile m) db row Hrow)
    as Hens.
  pose proof (exist_user_check_users_known import_time (from_user m) (profile m) db row
                Hrow) as Hsame.
  set (dbe := exist_user_check import_time (from_user m) (profile m) db) in *.
  destruct (update_image_entry _ _ _ _ dbe) as [db3|] eqn:E3; [|exact Hens].
  destruct (update_image_entry_users _ _ _ _ _ _ E3) as (Hus & Hps & Hls).
  rewrite Hsame in Hus.
  assert (only_requests_spent (from_user m) db db3) as H3.
  { eapply only_requests_spent_trans; [exact Hens|].
    split; [exact Hps|]. split; [exact Hls|]. rewrite Hus, Hsame.
    split; [reflexivity|].
    intros u Hu. exists u. repeat split; [exact Hu | lia]. }
  pose proof (send_outputs_alone_store m Halone image_paths 0 user db3) as Hloop.
  destruct (send_outputs m 0 image_paths user db3) as [[[ex ul] dbl] sent].
  cbn [fst snd] in Hloop. subst dbl.
  destruct ex; cbn [store_of]; try exact H3.
  eapply only_requests_spent_trans; [exact H3|].
  unfold decrement_requests_left. cbn [snd].
  apply only_requests_spent_alter. intros u Hu.
  rewrite Hus, Hrow in Hu. injection Hu as <-.
  unfold decrement_requests_row. apply Z.ltb_lt in Hr. rewrite Hr.
  apply Z.ltb_lt in Hr. cbn. repeat split; lia.
Qed.

(** X14: Handling a photo, with no other task at the store, touches no row
    but the sender's, and in that row neither the tier nor the target
    credits nor the expiration; it never adds requests; it leaves the
    purchases and the run-log as they are. *)
Theorem handle_image_spends_only_requests
    (import_time : Z) (token cwd : string) (m : Photo) (db : DB) :
  alone m ->
  let db' := fst (handle_image import_time token cwd m db) in
  premium_purchases db' = premium_purchases db
  /\ scheduler_logs db' = scheduler_logs db
  /\ (forall j, j <> from_user m -> users db' !! j = users db !! j)
  /\ (forall u,
        users (exist_user_check import_time (from_user m) (profile m) db)
          !! from_user m = Some u ->
        exists u',
          users db' !! from_user m = Some u'
          /\ status u' = status u
          /\ targets_left u' = targets_left u
          /\ premium_expiration u' = premium_expiration u
          /\ requests_left u' <= requests_left u).
Proof.
  intros Halone db'.
  assert (only_requests_spent (from_user m)
            (exist_user_check import_time (from_user m) (profile m) db) db') as H.
  { unfold db', handle_image, fetch_user_data.
    destruct (users (exist_user_check import_time (from_user m) (profile m) db) !! from_user m)
      as [user|] eqn:Hu; [|apply only_requests_spent_refl].
    unfold check_limit. destruct (requests_left user <=? 0) eqn:Hr;
      [apply only_requests_spent_refl|].
    apply Z.leb_gt in Hr. cbn [negb].
    destruct (check_time_limit user (now m) 20) as [[|] said];
      [|apply only_requests_spent_refl].
    cbn [negb].
    set (path := generate_filename cwd _ (rand m)).
    set (db1 := update_photo_timestamp (from_user m) (now m) _).
    assert (only_requests_spent (from_user m)
              (exist_user_check import_time (from_user m) (profile m) db) db1) as H1.
    { unfold db1, update_photo_timestamp. apply only_requests_spent_alter.
      intros u _. cbn. repeat split; lia. }
    assert (users db1 !! from_user m
            = Some (set_last_photo_sent_timestamp (now m) user)) as Hrow1
      by (apply lookup_user_alter_eq, Hu).
    set (db2 := log_input_image_data import_time (from_user m) (profile m) path (now m)
                  db1).
    assert (only_requests_spent (from_user m) db1 db2) as H12.
    { unfold db2, log_input_image_data, create_image_entry.
      eapply only_requests_spent_trans;
        [apply (only_requests_spent_ensure import_time _ (profile m) _ _ Hrow1)
        |apply only_requests_spent_images]. }
    assert (users db2 !! from_user m
            = Some (set_last_photo_sent_timestamp (now m) user)) as Hrow2.
    { unfold db2, log_input_image_data, create_image_entry.
      cbn [with_image_names users].
      rewrite (exist_user_check_users_known import_time _ (profile m) db1 _ Hrow1).
      exact Hrow1. }
    assert (only_requests_spent (from_user m) db2
              (store_of (handle_image_try import_time token m user path db2))) as Ht.
    { apply (handle_image_try_spends import_time token m user
               (set_last_photo_sent_timestamp (now m) user)); [exact Halone| |exact Hr].
      exact Hrow2. }
    destruct (handle_image_try import_time token m user path db2) as [dbr out|dbr out];
      cbn [fst store_of] in *;
      eapply only_requests_spent_trans; [exact H1| | exact H1|];
      (eapply only_requests_spent_trans; [exact H12 | exact Ht]). }
  destruct (only_requests_spent_created import_time (from_user m) (profile m) db db' H)
    as (Hp & Hl & Ho).
  split; [exact Hp|]. split; [exact Hl|]. split; [exact Ho|].
  destruct H as (_ & _ & _ & Hu). exact Hu.
Qed.

Lemma handle_image_spends_only_requests_witness :
  users (fst last_request_run) !! 2 = users last_request_db !! 2
  /\ premium_purchases (fst last_request_run) = premium_purchases last_request_db.
Proof.
  destruct (handle_image_spends_only_requests 0 "TOKEN" "/srv/bot"
              (single_photo 1 500 (Status 200 (Some three_outputs))) last_request_db
              (nobody_else_alone 1 500 (Status 200 (Some three_outputs))))
    as (Hp & _ & Ho & _).
  split; [apply Ho; discriminate | exact Hp].
Defined.

(** ** A rival task during the sends *)

Lemma send_outputs_stops (m : Photo) (k : nat) :
  forall (i : nat) (paths : list string) (user row : User) (db : DB),
    (k < length paths)%nat ->
    (forall j, (j < k)%nat ->
               exists r, users (store_reread m i j db) !! from_user m = Some r
                         /\ 0 < requests_left r) ->
    users (store_reread m i k db) !! from_user m = Some row ->
    requests_left row <= 0 ->
    send_outputs m i paths user db
    = (OutOfAttempts, row, store_reread m i k db,
       (map AnswerPhoto (take k paths)
          ++ [Answer "Sorry, you are out of attempts. Try again later"])%list).
Proof.
  induction k as [|k IH]; intros i paths user row db Hlen Hbefore Hrow Hr;
    destruct paths as [|p ps]; cbn [length] in Hlen; try lia; cbn [send_outputs].
  - cbn [store_reread] in Hrow. unfold fetch_user_data. rewrite Hrow.
    unfold check_limit. apply Z.leb_le in Hr. rewrite Hr. reflexivity.
  - destruct (Hbefore 0%nat) as (r & Hr0 & Hpos); [lia|].
    cbn [store_reread] in Hr0. unfold fetch_user_data. rewrite Hr0.
    unfold check_limit. apply Z.leb_gt in Hpos. rewrite Hpos.
    rewrite (IH (S i) ps r row (others m i db)).
    + reflexivity.
    + lia.
    + intros j Hj. apply (Hbefore (S j)). lia.
    + exact Hrow.
    + exact Hr.
Qed.

Lemma update_image_entry_single user_id input outs t0 now (db : DB) (old : list ImageName) :
  image_names db = (old ++ [mkImageName user_id input None t0])%list ->
  List.filter (image_entry_matches user_id input) old = [] ->
  update_image_entry user_id input outs now db
  = Some (with_image_names (map (update_image_row user_id input outs now)) db).
Proof.
  intros Himg Hfresh. unfold update_image_entry.
  rewrite Himg, List.filter_app, Hfresh. cbn [List.filter app].
  rewrite image_entry_matches_refl. reflexivity.
Qed.

(** X15: When another task uses up the sender's requests while the outputs
    are being sent, so that the re-read before output [k] is the first to
    show none left, exactly the first [k] outputs are delivered, the
    out-of-attempts reply follows, and the handler returns at once: it
    takes no request off for the [k] outputs delivered and does not
    announce a remaining count; the store is left as that re-read found
    it. *)
Theorem outputs_cut_short
    (import_time : Z) (token cwd : string) (m : Photo) (db : DB) (user row : User)
    (outs : list string) (k : nat) :
  users (exist_user_check import_time (from_user m) (profile m) db)
    !! from_user m = Some user ->
  0 < requests_left user ->
  fst (check_time_limit user (now m) 20) = true ->
  download m = Status 200 true ->
  is_premium user && flag_on user = false ->
  worker m = Status 200 (Some outs) ->
  List.filter (image_entry_matches (from_user m) (input_path_of cwd m user))
    (image_names db) = [] ->
  (k < length outs)%nat ->
  let db3 := store_at_loop import_time cwd m user outs db in
  (forall j, (j < k)%nat ->
             exists r, users (store_reread m 0 j db3) !! from_user m = Some r
                       /\ 0 < requests_left r) ->
  users (store_reread m 0 k db3) !! from_user m = Some row ->
  requests_left row <= 0 ->
  handle_image import_time token cwd m db
  = (store_reread m 0 k db3,
     ([ Get ("https://api.telegram.org/file/bot" ++ token ++ "/" ++ file_path m);
        Answer "Image received. Processing...";
        Post face_extraction_url (input_path_of cwd m user) (mode user) ]
        ++ map AnswerPhoto (take k outs)
        ++ [Answer "Sorry, you are out of attempts. Try again later"])%list).
Proof.
  intros Hu Hr Ht Hd Hnt Hw Hfresh Hk db3 Hbefore Hrow Hrow0.
  rewrite (handle_image_passed import_time token cwd m db user Hu Hr Ht).
  unfold handle_image_try. rewrite Hd. cbn [Z.eqb negb Pos.eqb].
  unfold target_image_check. rewrite Hnt, Hw. cbn [Z.eqb negb Pos.eqb].
  set (db2 := store_at_try import_time cwd m user db).
  assert (users db2 !! from_user m = Some (set_last_photo_sent_timestamp (now m) user))
    as Hrow2.
  { unfold db2. rewrite store_at_try_users by exact Hu.
    destruct (decide (from_user m = from_user m)); [reflexivity|congruence]. }
  unfold log_output_image_data. unfold db2 at 1.
  rewrite (store_at_try_settled import_time cwd m user db Hu). fold db2.
  rewrite (update_image_entry_single (from_user m) (input_path_of cwd m user) outs
             (now m) (now m) db2 (image_names db))
    by (try apply store_at_try_images; exact Hfresh).
  unfold store_at_loop in db3. subst db2 db3.
  rewrite (send_outputs_stops m k 0 outs user row _ Hk Hbefore Hrow Hrow0).
  reflexivity.
Qed.

Lemma outputs_cut_short_witness :
  photos
    (snd (handle_image 0 "TOKEN" "/srv/bot"
            (mkPhoto 2 a_sender None 500 "photos/file_7.jpg" 4242
               (Status 200 true) (Status 200 (Some three_outputs)) (rival 2 5 1))
            sample_db))
  = ["temp/result/img_1.png"]
  /\ requests_left
       <$> users (fst (handle_image 0 "TOKEN" "/srv/bot"
                         (mkPhoto 2 a_sender None 500 "photos/file_7.jpg" 4242
                            (Status 200 true) (Status 200 (Some three_outputs)) (rival 2 5 1))
                         sample_db)) !! 2
     = Some 0.
Proof.
  rewrite (outputs_cut_short 0 "TOKEN" "/srv/bot"
             (mkPhoto 2 a_sender None 500 "photos/file_7.jpg" 4242
                (Status 200 true) (Status 200 (Some three_outputs)) (rival 2 5 1))
             sample_db (mkUser "3" 0 "free" 3 0 0 None)
             (mkUser "3" 0 "free" 0 0 500 None) three_outputs 1
             eq_refl eq_refl eq_refl eq_refl eq_refl eq_refl eq_refl).
  - split; reflexivity.
  - cbn. lia.
  - intros j Hj. assert (j = 0%nat) as -> by lia.
    eexists. split; [vm_compute; reflexivity | reflexivity].
  - vm_compute. reflexivity.
  - cbn. lia.
Defined.

Lemma set_user_to_premium_adds_witness :
  snd (set_user_to_premium 30 0 2 a_sender 50 sample_db)
  = [Answer "Congratulations! You got premium status!
You have 103 attempts left"]
  /\ users (fst (set_user_to_premium 30 0 2 a_sender 50 sample_db)) !! 1
     = users sample_db !! 1
  /\ premium_expiration <$> users (fst (set_user_to_premium 30 0 2 a_sender 50 sample_db)) !! 2
     = Some (Some 30).
Proof.
  destruct (set_user_to_premium_adds 30 0 2 a_sender 50 sample_db)
    as (Hreply & (u' & Hu' & _ & _ & _ & Hexp & _) & _ & Hother).
  split; [exact Hreply|]. split; [apply Hother; discriminate|].
  rewrite Hu'. cbn [fmap option_fmap option_map]. rewrite Hexp. reflexivity.
Defined.

(** ** Bursts of photos *)

(** X16: While less than [DELAY_BETWEEN_IMAGES] seconds have passed since the
    photo that was last let through, every further photo of that user is
    answered with the one-at-a-time reply and leaves the bot exactly as it
    was: being turned down does not restart the delay, so the first single
    photo that comes two seconds or more after the one let through passes
    the gate again.  Photos of one user never touch the entry of
    another. *)
Theorem photo_burst
    (PREMIUM_DAYS import_time : Z) (token cwd : string) (b : Bot) (user_id t : Z)
    (burst : list Photo) :
  SENT_TIME b !! user_id = Some t ->
  Forall (fun m => from_user m = user_id /\ now m - t < DELAY_BETWEEN_IMAGES) burst ->
  run PREMIUM_DAYS import_time token cwd (map PhotoMessage burst) b = b
  /\ Forall (fun m => snd (image_handler import_time token cwd m b)
                      = [Answer "Please send one photo at a time."]) burst
  /\ (forall m,
        from_user m = user_id -> media_group_id m = None ->
        DELAY_BETWEEN_IMAGES <= now m - t ->
        fst (prevent_multisending m
               (SENT_TIME (run PREMIUM_DAYS import_time token cwd
                             (map PhotoMessage burst) b))) = true)
  /\ (forall m j,
        j <> from_user m ->
        SENT_TIME (fst (image_handler import_time token cwd m b)) !! j
        = SENT_TIME b !! j).
Proof.
  intros Hsent Hburst.
  assert (forall m, from_user m = user_id /\ now m - t < DELAY_BETWEEN_IMAGES ->
                    image_handler import_time token cwd m b
                    = (b, [Answer "Please send one photo at a time."])) as Hdown.
  { intros m [Hfrom Hlt]. apply image_handler_rejects.
    unfold prevent_multisending. rewrite Hfrom, Hsent.
    apply Z.leb_gt in Hlt. rewrite Hlt, andb_false_r. reflexivity. }
  assert (run PREMIUM_DAYS import_time token cwd (map PhotoMessage burst) b = b) as Hrun.
  { unfold run. induction Hburst as [|m ms Hm Hms IH]; [reflexivity|].
    cbn [map fold_left step]. rewrite (Hdown m Hm). exact IH. }
  split; [exact Hrun|]. split; [|split].
  - eapply Forall_impl; [exact Hburst|]. intros m Hm. cbn beta.
    rewrite (Hdown m Hm). reflexivity.
  - intros m Hfrom Hsingle Hle. rewrite Hrun.
    unfold prevent_multisending. rewrite Hsingle, Hfrom, Hsent.
    apply Z.leb_le in Hle. rewrite Hle. reflexivity.
  - intros m j Hj. rewrite image_handler_sent_time.
    unfold prevent_multisending. destruct (_ && _); cbn [snd]; [|reflexivity].
    apply lookup_insert_ne. congruence.
Qed.

Lemma photo_burst_witness :
  run 30 0 "TOKEN" "/srv/bot"
    [PhotoMessage (single_photo 1 100 Failed); PhotoMessage (single_photo 1 101 Failed)]
    (mkBot sample_db {[ 1 := 100 ]})
  = mkBot sample_db {[ 1 := 100 ]}.
Proof.
  apply (photo_burst 30 0 "TOKEN" "/srv/bot" (mkBot sample_db {[ 1 := 100 ]}) 1 100
           [single_photo 1 100 Failed; single_photo 1 101 Failed]).
  - reflexivity.
  - repeat constructor.
Defined.

(** *** One photo per twenty seconds *)

Lemma handle_image_try_row (import_time : Z) (token : string) (P : User -> Prop)
    (m : Photo) (user row : User) (input_path : string) (db : DB) :
  alone m ->
  (forall u v, P u -> P (set_mode v u)) ->
  (forall u v, P u -> P (set_receive_target_flag v u)) ->
  (forall u n, P u -> P (decrement_requests_row n u)) ->
  users db !! from_user m = Some row ->
  P row ->
  exists row',
    users (store_of (handle_image_try import_time token m user input_path db))
      !! from_user m = Some row'
    /\ P row'.
Proof.
  intros Halone Pmode Pflag Pdec Hrow HP. unfold handle_image_try.
  destruct (download m) as [code decodes|]; [|exists row; split; assumption].
  destruct (negb (code =? 200)); [exists row; split; assumption|].
  destruct (negb decodes); [exists row; split; assumption|].
  unfold target_image_check.
  destruct (is_premium user && flag_on user).
  { cbn [store_of]. eexists. split.
    - unfold toggle_receive_target_flag. apply lookup_user_alter_eq.
      unfold update_user_mode. apply lookup_user_alter_eq. exact Hrow.
    - apply Pflag, Pmode, HP. }
  destruct (worker m) as [wcode body|]; [|exists row; split; assumption].
  destruct (negb (wcode =? 200)); [exists row; split; assumption|].
  destruct body as [image_paths|]; [|exists row; split; assumption].
  unfold log_output_image_data.
  pose proof (exist_user_check_users_known import_time (from_user m) (profile m) db row
                Hrow) as Hsame.
  set (dbe := exist_user_check import_time (from_user m) (profile m) db) in *.
  destruct (update_image_entry _ _ _ _ dbe) as [db3|] eqn:E3;
    [|exists row; split; [cbn [store_of]; rewrite Hsame; exact Hrow | exact HP]].
  destruct (update_image_entry_users _ _ _ _ _ _ E3) as (Hus & _ & _).
  rewrite Hsame in Hus.
  pose proof (send_outputs_alone_store m Halone image_paths 0 user db3) as Hloop.
  destruct (send_outputs m 0 image_paths user db3) as [[[ex ul] dbl] sent].
  cbn [fst snd] in Hloop. subst dbl.
  destruct ex; cbn [store_of];
    try (exists row; split; [rewrite Hus; exact Hrow | exact HP]).
  eexists. split.
  - unfold decrement_requests_left. cbn [snd]. apply lookup_user_alter_eq.
    rewrite Hus. exact Hrow.
  - apply Pdec, HP.
Qed.

(** X17: A free user gets at most one photo taken up per 20 seconds: after a
    photo of a non-premium user has been taken up, however its processing
    ended, no further photo of that user is taken up while less than 20
    seconds have passed since. *)
Theorem one_photo_per_window
    (import_time : Z) (token cwd : string) (m1 m2 : Photo) (db : DB) (user : User) :
  alone m1 ->
  users (exist_user_check import_time (from_user m1) (profile m1) db)
    !! from_user m1 = Some user ->
  is_premium user = false ->
  accepted (snd (handle_image import_time token cwd m1 db)) ->
  from_user m2 = from_user m1 ->
  now m2 - now m1 < 20 ->
  ~ accepted (snd (handle_image import_time token cwd m2
                     (fst (handle_image import_time token cwd m1 db)))).
Proof.
  intros Halone Hu Hfree Hacc Hfrom Hsoon.
  destruct (handle_image_accepted_gates import_time token cwd m1 db Hacc)
    as (user' & Hu' & Hlim & Htime).
  unfold fetch_user_data in Hu'. rewrite Hu in Hu'. injection Hu' as <-.
  assert (0 < requests_left user) as Hr.
  { unfold check_limit in Hlim. destruct (requests_left user <=? 0) eqn:E;
      [discriminate|]. apply Z.leb_gt, E. }
  rewrite (handle_image_passed import_time token cwd m1 db user Hu Hr Htime).
  set (P := fun u : User =>
              last_photo_sent_timestamp u = now m1 /\ status u = status user).
  destruct (handle_image_try_row import_time token P m1 user
              (set_last_photo_sent_timestamp (now m1) user)
              (input_path_of cwd m1 user) (store_at_try import_time cwd m1 user db))
    as (row' & Hrow' & Hts & Hst).
  - exact Halone.
  - intros u v [? ?]. split; assumption.
  - intros u v [? ?]. split; assumption.
  - intros u n [? ?]. unfold decrement_requests_row.
    destruct (0 <? requests_left u); split; assumption.
  - rewrite store_at_try_users by exact Hu.
    destruct (decide (from_user m1 = from_user m1)); [reflexivity|congruence].
  - split; reflexivity.
  - assert (fst (match handle_image_try import_time token m1 user
                         (input_path_of cwd m1 user)
                         (store_at_try import_time cwd m1 user db) with
                 | Returned db' out => (db', out)
                 | Raised db' out =>
                     (db', (out ++ [Answer "Sorry must have been an error. Try again later."])%list)
                 end)
            = store_of (handle_image_try import_time token m1 user
                          (input_path_of cwd m1 user)
                          (store_at_try import_time cwd m1 user db))) as ->
      by (destruct (handle_image_try _ _ _ _ _ _); reflexivity).
    set (db' := store_of _) in *.
    unfold handle_image, fetch_user_data. rewrite Hfrom.
    rewrite (exist_user_check_users_known import_time (from_user m1) (profile m2) db' row'
               Hrow'), Hrow'.
    unfold check_limit. destruct (requests_left row' <=? 0); cbn [negb];
      [apply not_accepted_answer|].
    unfold check_time_limit, is_premium, timedelta_seconds. rewrite Hst.
    unfold is_premium in Hfree. rewrite Hfree, Hts.
    apply Z.ltb_lt in Hsoon. rewrite Hsoon. cbn [negb].
    apply not_accepted_answer.
Qed.

Lemma one_photo_per_window_witness :
  ~ accepted
      (snd (handle_image 0 "TOKEN" "/srv/bot" (single_photo 2 510 Failed)
              (fst (handle_image 0 "TOKEN" "/srv/bot" (single_photo 2 500 Failed)
                      sample_db)))).
Proof.
  apply (one_photo_per_window 0 "TOKEN" "/srv/bot" (single_photo 2 500 Failed)
           (single_photo 2 510 Failed) sample_db (mkUser "3" 0 "free" 3 0 0 None)).
  - apply nobody_else_alone.
  - reflexivity.
  - reflexivity.
  - exists "https://api.telegram.org/file/botTOKEN/photos/file_7.jpg".
    vm_compute. left. reflexivity.
  - reflexivity.
  - reflexivity.
Defined.

(** ** Commands *)

(** X18: Pressing a button of the keyboard never signs anybody up: for an
    unknown user the store stays as it is, for a known one the mode
    becomes the number of the button and the target flag is lowered, the
    counters and the tier being left alone.  For the numbers 1 to 12 the
    reply names the picture; number 0 wraps around to the last picture;
    for a number above 12 the lookup of the name fails after the store
    has been updated, so the mode is changed and no reply is sent. *)
Theorem button_press (user_id data : Z) (db : DB) :
  let db' := fst (button_callback_handler user_id data db) in
  let out := snd (button_callback_handler user_id data db) in
  (users db !! user_id = None -> db' = db)
  /\ (forall u,
        users db !! user_id = Some u ->
        users db' !! user_id
        = Some (mkUser (str data) 0 (status u) (requests_left u) (targets_left u)
                  (last_photo_sent_timestamp u) (premium_expiration u)))
  /\ (forall j, j <> user_id -> users db' !! j = users db !! j)
  /\ (1 <= data <= 12 ->
      exists name,
        buttons !! Z.to_nat (data - 1) = Some name
        /\ out = [Answer ("Target image is " ++ name ++ "
Send me a photo, and I'll process it!")])
  /\ (data = 0 ->
      out = [Answer "Target image is Barbie
Send me a photo, and I'll process it!"])
  /\ (12 < data -> out = []).
Proof.
  intros db' out.
  assert (db' = update_user_mode user_id (str data)
                  (toggle_receive_target_flag user_id 0 db)) as Edb.
  { unfold db', button_callback_handler.
    destruct (item buttons (data - 1)); reflexivity. }
  split; [|split; [|split; [|split; [|split]]]].
  - intros Hu. rewrite Edb. unfold update_user_mode, toggle_receive_target_flag.
    rewrite (alter_unknown_user _ _ db Hu). apply alter_unknown_user, Hu.
  - intros u Hu. rewrite Edb. unfold update_user_mode, toggle_receive_target_flag.
    rewrite (lookup_user_alter_eq _ _ _ (set_receive_target_flag 0 u))
      by (apply lookup_user_alter_eq, Hu).
    reflexivity.
  - intros j Hj. rewrite Edb. unfold update_user_mode, toggle_receive_target_flag.
    rewrite !lookup_user_alter_ne by congruence. reflexivity.
  - intros Hrange.
    assert (exists k, (k < 12)%nat /\ data = Z.of_nat k + 1) as (k & Hk & ->)
      by (exists (Z.to_nat (data - 1)); lia).
    unfold out, button_callback_handler, item.
    replace (Z.of_nat k + 1 - 1) with (Z.of_nat k) by lia.
    replace (0 <=? Z.of_nat k) with true by (symmetry; apply Z.leb_le; lia).
    rewrite Nat2Z.id.
    do 12 (destruct k as [|k]; [eexists; split; reflexivity|]). lia.
  - intros ->. reflexivity.
  - intros Hbig. unfold out, button_callback_handler, item.
    replace (0 <=? data - 1) with true by (symmetry; apply Z.leb_le; lia).
    rewrite (proj2 (lookup_ge_None buttons (Z.to_nat (data - 1)))); [reflexivity|].
    cbn [buttons length]. lia.
Qed.

Lemma button_press_witness :
  snd (button_callback_handler 1 3 sample_db)
  = [Answer "Target image is Mona Lisa
Send me a photo, and I'll process it!"]
  /\ snd (button_callback_handler 1 13 sample_db) = []
  /\ mode <$> users (fst (button_callback_handler 1 13 sample_db)) !! 1 = Some "13".
Proof.
  destruct (button_press 1 3 sample_db) as (_ & _ & _ & Hin & _).
  destruct (button_press 1 13 sample_db) as (_ & Hrow & _ & _ & _ & Hout).
  split; [|split].
  - destruct Hin as (name & Hname & Hreply); [lia|].
    injection Hname as <-. exact Hreply.
  - apply Hout. lia.
  - rewrite (Hrow _ eq_refl). reflexivity.
Defined.

(** X19: [/reset_limit] resets nothing.  [set_requests_left] raises for every
    user of the table, whatever the number, and the sender is in the
    table once the sign-up check is through; so the handler is left by
    the exception before it answers, and all it has written is that
    check: every row that was in the table keeps mode, flag, tier,
    counters, timestamp and expiration, a sender who was not known holds
    the column defaults, and no purchase is deleted. *)
Theorem reset_images_left_raises (import_time user_id : Z) (user : Profile) (db : DB) :
  let db' := fst (reset_images_left import_time user_id user db) in
  (forall j number, is_Some (users db !! j) -> set_requests_left j number db = None)
  /\ reset_images_left import_time user_id user db
     = (exist_user_check import_time user_id user db, [])
  /\ (forall j u, users db !! j = Some u -> users db' !! j = Some u)
  /\ (users db !! user_id = None ->
      users db' !! user_id = Some (mkUser "1" 0 "free" 10 0 import_time None))
  /\ premium_purchases db' = premium_purchases db.
Proof.
  intros db'.
  assert (reset_images_left import_time user_id user db
          = (exist_user_check import_time user_id user db, [])) as E.
  { unfold reset_images_left, set_requests_left.
    rewrite exist_user_check_lookup. reflexivity. }
  split; [|split; [exact E|]].
  - intros j number [u Hu]. unfold set_requests_left. rewrite Hu. reflexivity.
  - unfold db'. rewrite E. cbn [fst]. split; [|split].
    + intros j u Hj. destruct (decide (j = user_id)) as [->|Hne].
      * rewrite exist_user_check_lookup, Hj. reflexivity.
      * rewrite exist_user_check_other by exact Hne. exact Hj.
    + intros Hnew. rewrite exist_user_check_lookup, Hnew. reflexivity.
    + apply exist_user_check_rest.
Qed.

Lemma reset_images_left_raises_witness :
  snd (reset_images_left 0 1 a_sender sample_db) = []
  /\ users (fst (reset_images_left 0 1 a_sender sample_db)) !! 1
     = Some (mkUser "1" 1 "premium" 5 4 0 (Some 40))
  /\ premium_purchases (fst (reset_images_left 0 1 a_sender sample_db))
     = [mkPremiumPurchase 1 10 40 10 100].
Proof.
  destruct (reset_images_left_raises 0 1 a_sender sample_db)
    as (_ & E & Hrow & _ & Hps).
  split; [rewrite E; reflexivity|]. split; [|exact Hps].
  apply Hrow. reflexivity.
Defined.

(** * Further properties: housekeeping *)

(** ** Clearing old image rows *)

Lemma clear_loop_images (hour_delay now : Z) (ks : list Z) (db : DB) :
  image_names
    (fold_left (fun d k => clear_output_images_by_user_id k hour_delay now d) ks db)
  = List.filter
      (fun e => negb (existsb
                        (fun k => outdated_for k (now - timedelta_hours hour_delay) e) ks))
      (image_names db).
Proof.
  revert db. induction ks as [|k ks IH]; intros db; cbn [fold_left existsb].
  - symmetry. apply list_filter_all. reflexivity.
  - rewrite IH. unfold clear_output_images_by_user_id.
    cbn [with_image_names image_names].
    rewrite list_filter_filter. apply filter_ext. intros e.
    rewrite negb_orb. reflexivity.
Qed.

Lemma clear_loop_rest (hour_delay now : Z) (ks : list Z) (db : DB) :
  users (fold_left (fun d k => clear_output_images_by_user_id k hour_delay now d) ks db)
  = users db
  /\ premium_purchases
       (fold_left (fun d k => clear_output_images_by_user_id k hour_delay now d) ks db)
     = premium_purchases db
  /\ scheduler_logs
       (fold_left (fun d k => clear_output_images_by_user_id k hour_delay now d) ks db)
     = scheduler_logs db.
Proof.
  revert db. induction ks as [|k ks IH]; intros db; cbn [fold_left]; [repeat split|].
  destruct (IH (clear_output_images_by_user_id k hour_delay now db)) as (-> & -> & ->).
  repeat split.
Qed.

(** X20: [clear_outdated_images] deletes exactly the image rows that are older
    than [hour_delay] hours and carry the id of a user of the [users]
    table: a row that is younger, or whose user is not in the table, is
    kept; the users, the purchases and the run-log are not touched. *)
Theorem clear_outdated_images_spec (hour_delay now : Z) (db : DB) :
  let db' := clear_outdated_images hour_delay now db in
  (forall e,
      In e (image_names db')
      <-> In e (image_names db)
          /\ (users db !! image_user_id e = None
              \/ now - timedelta_hours hour_delay <= image_timestamp e))
  /\ users db' = users db
  /\ premium_purchases db' = premium_purchases db
  /\ scheduler_logs db' = scheduler_logs db.
Proof.
  intros db'. split; [|apply clear_loop_rest].
  intros e. unfold db', clear_outdated_images.
  rewrite clear_loop_images, filter_In, negb_true_iff, <- not_true_iff_false.
  rewrite existsb_exists.
  split; intros [Hin H]; (split; [exact Hin|]).
  - destruct (users db !! image_user_id e) as [u|] eqn:E; [|left; reflexivity].
    right. destruct (Z.le_gt_cases (now - timedelta_hours hour_delay) (image_timestamp e))
      as [Hle|Hgt]; [exact Hle|].
    exfalso. apply H. exists (image_user_id e). split.
    + apply list_elem_of_In, list_elem_of_fmap. exists (image_user_id e, u).
      split; [reflexivity|]. apply elem_of_map_to_list, E.
    + unfold outdated_for. rewrite Z.eqb_refl. apply Z.ltb_lt. lia.
  - intros (k & Hk & Hout). unfold outdated_for in Hout.
    apply andb_true_iff in Hout as [Hid Hlt].
    apply Z.eqb_eq in Hid. apply Z.ltb_lt in Hlt. subst k.
    apply list_elem_of_In, list_elem_of_fmap in Hk as ([k u] & Hfst & Hmem).
    cbn in Hfst. subst k. apply elem_of_map_to_list in Hmem.
    destruct H as [H|H]; [congruence | lia].
Qed.

(** ** Expired purchases *)

(** X21: [remove_expired_premium_purchases] for a known user does nothing that
    the sweep would not do anyway: [update_user_quotas] ends with the same
    users and the same purchases whether or not it was called before; and
    it never deletes a purchase that is still valid or belongs to someone
    else. *)
Theorem remove_expired_premium_purchases_spec
    (free_requests td user_id now : Z) (db : DB) :
  (forall p,
      In p (premium_purchases (remove_expired_premium_purchases user_id now db))
      <-> In p (premium_purchases db)
          /\ (purchase_user_id p <> user_id \/ date now <= expiration_date p))
  /\ users (update_user_quotas free_requests td now
              (remove_expired_premium_purchases user_id now db))
     = users (update_user_quotas free_requests td now db)
  /\ (is_Some (users db !! user_id) ->
      premium_purchases (update_user_quotas free_requests td now
                           (remove_expired_premium_purchases user_id now db))
      = premium_purchases (update_user_quotas free_requests td now db)).
Proof.
  split; [|split].
  - intros p. unfold remove_expired_premium_purchases.
    cbn [with_premium_purchases premium_purchases].
    rewrite filter_In, negb_true_iff. unfold expired_for.
    rewrite andb_false_iff, Z.eqb_neq, Z.ltb_ge. tauto.
  - apply map_eq. intros j. rewrite !update_user_quotas_users.
    unfold remove_expired_premium_purchases.
    cbn [with_premium_purchases premium_purchases users].
    rewrite active_after_delete. reflexivity.
  - intros [u Hu]. rewrite !update_user_quotas_kept.
    unfold remove_expired_premium_purchases.
    cbn [with_premium_purchases premium_purchases users].
    rewrite list_filter_filter. apply filter_ext. intros p.
    destruct (expired_for user_id (date now) p) eqn:E; [|reflexivity].
    cbn [negb andb]. symmetry. apply negb_false_iff, existsb_exists.
    exists user_id. split; [|exact E].
    apply list_elem_of_In, list_elem_of_fmap. exists (user_id, u).
    split; [reflexivity|]. apply elem_of_map_to_list, Hu.
Qed.

Lemma remove_expired_premium_purchases_spec_witness :
  premium_purchases (update_user_quotas 10 24 (timedelta_days 41)
                       (remove_expired_premium_purchases 1 (timedelta_days 41) sample_db))
  = premium_purchases (update_user_quotas 10 24 (timedelta_days 41) sample_db).
Proof.
  apply (remove_expired_premium_purchases_spec 10 24 1 (timedelta_days 41) sample_db).
  eexists. reflexivity.
Defined.

(** ** The purchase migration *)

Lemma NoDup_fst_filter {A B : Type} (f : A * B -> bool) (l : list (A * B)) :
  NoDup l.*1 -> NoDup (List.filter f l).*1.
Proof.
  induction l as [|x l IH]; cbn; [intros; constructor|].
  intros H. apply NoDup_cons in H as [Hx Hl].
  destruct (f x); cbn; [|apply IH, Hl].
  apply NoDup_cons. split; [|apply IH, Hl].
  intros Hin. apply Hx.
  apply list_elem_of_fmap in Hin as (y & Hy & Hmem).
  apply list_elem_of_fmap. exists y. split; [exact Hy|].
  apply list_elem_of_In. apply list_elem_of_In in Hmem.
  apply filter_In in Hmem as [Hmem _]. exact Hmem.
Qed.

Lemma add_purchases_loop (PREMIUM_DAYS now j : Z) (kus : list (Z * User)) (db : DB) :
  NoDup kus.*1 ->
  let step := fun d (ku : Z * User) =>
    with_premium_purchases
      (fun ps => (ps ++ [mkPremiumPurchase (fst ku) (date now)
                           (date (now + timedelta_days PREMIUM_DAYS)) 10 100])%list) d in
  users (fold_left step kus db) = users db
  /\ List.filter (fun p => purchase_user_id p =? j)
       (premium_purchases (fold_left step kus db))
     = (List.filter (fun p => purchase_user_id p =? j) (premium_purchases db)
          ++ if decide (j ∈ kus.*1)
             then [mkPremiumPurchase j (date now)
                     (date (now + timedelta_days PREMIUM_DAYS)) 10 100]
             else [])%list.
Proof.
  intros Hnd step. revert db. induction kus as [|[k u] kus IH]; intros db.
  - cbn. split; [reflexivity|].
    destruct (decide (j ∈ [])) as [Hin|_]; [apply elem_of_nil in Hin; destruct Hin|].
    symmetry. apply app_nil_r.
  - cbn [fmap list_fmap fst] in Hnd. apply NoDup_cons in Hnd as [Hk Hnd].
    cbn [fold_left]. destruct (IH Hnd (step db (k, u))) as [Hus Hps].
    split; [rewrite Hus; reflexivity|].
    rewrite Hps. unfold step. cbn [with_premium_purchases premium_purchases fst].
    rewrite List.filter_app. cbn [List.filter purchase_user_id].
    rewrite <- app_assoc. f_equal.
    destruct (decide (k = j)) as [->|Hne].
    + rewrite Z.eqb_refl.
      destruct (decide (j ∈ kus.*1)) as [Hin|_]; [contradiction|].
      destruct (decide (j ∈ ((j, u) :: kus).*1)) as [_|Hout]; [reflexivity|].
      exfalso. apply Hout. cbn. left.
    + replace (k =? j) with false by (symmetry; apply Z.eqb_neq, Hne).
      cbn [app].
      destruct (decide (j ∈ kus.*1)) as [Hin|Hout];
        destruct (decide (j ∈ ((k, u) :: kus).*1)) as [Hin'|Hout']; try reflexivity.
      * exfalso. apply Hout'. cbn. right. exact Hin.
      * exfalso. cbn in Hin'. apply elem_of_cons in Hin' as [->|Hin'];
          [apply Hne; reflexivity | apply Hout, Hin'].
Qed.

(** X22: [add_premium_purchase_for_premium_users] appends exactly one purchase
    (10 target credits, 100 requests, valid for [PREMIUM_DAYS] days from
    now) for every user whose status is premium and none for anybody
    else; it leaves the users table alone, and it is not idempotent: each
    run adds one more purchase per premium user. *)
Theorem add_premium_purchase_for_premium_users_spec (PREMIUM_DAYS now j : Z) (db : DB) :
  let db' := add_premium_purchase_for_premium_users PREMIUM_DAYS now db in
  let granted :=
    match users db !! j with
    | Some u =>
        if is_premium u
        then [mkPremiumPurchase j (date now)
                (date (now + timedelta_days PREMIUM_DAYS)) 10 100]
        else []
    | None => []
    end in
  users db' = users db
  /\ List.filter (fun p => purchase_user_id p =? j) (premium_purchases db')
     = (List.filter (fun p => purchase_user_id p =? j) (premium_purchases db)
          ++ granted)%list
  /\ List.filter (fun p => purchase_user_id p =? j)
       (premium_purchases (add_premium_purchase_for_premium_users PREMIUM_DAYS now db'))
     = (List.filter (fun p => purchase_user_id p =? j) (premium_purchases db)
          ++ granted ++ granted)%list.
Proof.
  intros db' granted.
  assert (forall d,
             users (add_premium_purchase_for_premium_users PREMIUM_DAYS now d) = users d
             /\ List.filter (fun p => purchase_user_id p =? j)
                  (premium_purchases (add_premium_purchase_for_premium_users
                                        PREMIUM_DAYS now d))
                = (List.filter (fun p => purchase_user_id p =? j) (premium_purchases d)
                     ++ match users d !! j with
                        | Some u =>
                            if is_premium u
                            then [mkPremiumPurchase j (date now)
                                    (date (now + timedelta_days PREMIUM_DAYS)) 10 100]
                            else []
                        | None => []
                        end)%list) as Hone.
  { intros d. unfold add_premium_purchase_for_premium_users.
    set (kus := List.filter _ (map_to_list (users d))).
    destruct (add_purchases_loop PREMIUM_DAYS now j kus d) as [Hus Hps].
    { apply NoDup_fst_filter, NoDup_fst_map_to_list. }
    split; [exact Hus|]. cbn zeta in Hps. rewrite Hps. f_equal.
    destruct (decide (j ∈ kus.*1)) as [Hin|Hout].
    - apply list_elem_of_fmap in Hin as ([k u] & Hk & Hmem). cbn in Hk. subst k.
      apply list_elem_of_In, filter_In in Hmem as [Hmem Hprem].
      apply list_elem_of_In, elem_of_map_to_list in Hmem. cbn in Hprem.
      rewrite Hmem, Hprem. reflexivity.
    - destruct (users d !! j) as [u|] eqn:E; [|reflexivity].
      destruct (is_premium u) eqn:Ep; [|reflexivity].
      exfalso. apply Hout. apply list_elem_of_fmap. exists (j, u).
      split; [reflexivity|]. apply list_elem_of_In, filter_In.
      split; [|exact Ep]. apply list_elem_of_In, elem_of_map_to_list, E. }
  destruct (Hone db) as [Hus Hps]. fold db' in Hus, Hps.
  split; [exact Hus|]. split; [exact Hps|].
  destruct (Hone db') as [_ Hps']. rewrite Hps', Hps, Hus, <- app_assoc. reflexivity.
Qed.

(** ** Counting the outputs of an image row *)

Lemma split_on_plain (sep : Ascii.ascii) (s : string) :
  ~ In sep (list_ascii_of_string s) -> split_on sep s = [s].
Proof.
  induction s as [|a s IH]; cbn [split_on list_ascii_of_string]; [reflexivity|].
  intros Hno. destruct (Ascii.eqb a sep) eqn:E.
  - apply Ascii.eqb_eq in E. exfalso. apply Hno. left. exact E.
  - rewrite IH; [reflexivity|]. intros Hin. apply Hno. right. exact Hin.
Qed.

Lemma split_on_app (sep : Ascii.ascii) (x rest : string) :
  ~ In sep (list_ascii_of_string x) ->
  split_on sep (x ++ String sep rest) = x :: split_on sep rest.
Proof.
  induction x as [|a x IH]; intros Hno.
  - change ("" ++ String sep rest) with (String sep rest).
    cbn [split_on]. rewrite Ascii.eqb_refl. reflexivity.
  - change (String a x ++ String sep rest) with (String a (x ++ String sep rest)).
    cbn [split_on]. cbn [list_ascii_of_string] in Hno.
    destruct (Ascii.eqb a sep) eqn:E.
    + apply Ascii.eqb_eq in E. exfalso. apply Hno. left. exact E.
    + rewrite IH; [reflexivity|]. intros Hin. apply Hno. right. exact Hin.
Qed.

Lemma split_on_concat (outs : list string) :
  outs <> [] ->
  Forall (fun s => ~ In comma (list_ascii_of_string s)) outs ->
  split_on comma (String.concat "," outs) = outs.
Proof.
  intros Hne Hplain. induction Hplain as [|x l Hx Hl IH]; [contradiction|].
  destruct l as [|y l].
  - cbn [String.concat]. apply split_on_plain, Hx.
  - change (String.concat "," (x :: y :: l))
      with (x ++ String comma (String.concat "," (y :: l))).
    rewrite split_on_app by exact Hx. f_equal. apply IH. discriminate.
Qed.

(** X23: The outputs of a photo are stored joined by commas, and the report
    counts them by splitting at commas: as long as no output name
    contains a comma, splitting the stored string gives back the list of
    outputs, and when moreover no name is empty the count reported for
    the row is the number of outputs (0 for an empty list, which is
    stored as [None]). *)
Theorem outputs_round_trip (outs : list string) :
  Forall (fun s => ~ In comma (list_ascii_of_string s)) outs ->
  (outs <> [] ->
   exists s, str_outputs outs = Some s /\ split_on comma s = outs)
  /\ (Forall (fun s => s <> "") outs ->
      output_count (str_outputs outs) = length outs).
Proof.
  intros Hplain. split.
  - intros Hne. exists (String.concat "," outs). split.
    + destruct outs; [contradiction | reflexivity].
    + apply split_on_concat; assumption.
  - intros Hfull. destruct outs as [|x l] eqn:E; [reflexivity|].
    rewrite <- E in *. assert (outs <> []) as Hne by (rewrite E; discriminate).
    assert (str_outputs outs = Some (String.concat "," outs)) as ->
      by (rewrite E; reflexivity).
    unfold output_count.
    destruct (String.eqb (String.concat "," outs) "") eqn:Eq.
    + apply String.eqb_eq in Eq. exfalso.
      rewrite E in Eq, Hfull. apply Forall_cons in Hfull as [Hx _].
      destruct l as [|y l]; cbn [String.concat] in Eq; [contradiction|].
      destruct x; [contradiction | discriminate Eq].
    + rewrite split_on_concat by assumption. reflexivity.
Qed.

Lemma outputs_round_trip_witness :
  output_count (str_outputs three_outputs) = 3%nat
  /\ exists s, str_outputs three_outputs = Some s /\ split_on comma s = three_outputs.
Proof.
  assert (Forall (fun s => ~ In comma (list_ascii_of_string s)) three_outputs) as Hplain.
  { unfold three_outputs. repeat constructor; cbn; intros H;
      repeat (destruct H as [H|H]; [discriminate H|]); exact H. }
  destruct (outputs_round_trip three_outputs Hplain) as [Hsplit Hcount].
  split.
  - apply Hcount. unfold three_outputs. repeat constructor; discriminate.
  - apply Hsplit. discriminate.
Defined.

(** ** Instances *)

Lemma update_user_quotas_deletes_expired_witness :
  ~ In (mkPremiumPurchase 1 10 40 10 100)
      (premium_purchases (update_user_quotas 10 24 (timedelta_days 41) sample_db))
  /\ In (mkPremiumPurchase 1 10 40 10 100)
       (premium_purchases (update_user_quotas 10 24 (timedelta_days 40) sample_db)).
Proof.
  split.
  - intros Hin.
    apply (update_user_quotas_deletes_expired 10 24 (timedelta_days 41) sample_db) in Hin
      as [_ [Hnone|Hle]].
    + discriminate Hnone.
    + vm_compute in Hle. apply Hle. reflexivity.
  - apply (update_user_quotas_deletes_expired 10 24 (timedelta_days 40) sample_db).
    split; [left; reflexivity|]. right. vm_compute. discriminate.
Defined.

Lemma update_user_quotas_idempotent_witness :
  users (update_user_quotas 10 24 (timedelta_days 41)
           (update_user_quotas 10 24 (timedelta_days 41) sample_db))
  = users (update_user_quotas 10 24 (timedelta_days 41) sample_db).
Proof.
  apply (update_user_quotas_idempotent 10 24 24 (timedelta_days 41) sample_db).
Defined.

Lemma clear_outdated_images_spec_witness :
  ~ In (mkImageName 2 "temp/original/img_1.png" None 100)
      (image_names (clear_outdated_images 24 90100 sample_images_db))
  /\ In (mkImageName 2 "temp/original/img_2.png" None 90000)
       (image_names (clear_outdated_images 24 90100 sample_images_db))
  /\ In (mkImageName 5 "temp/original/img_3.png" None 100)
       (image_names (clear_outdated_images 24 90100 sample_images_db)).
Proof.
  destruct (clear_outdated_images_spec 24 90100 sample_images_db) as [Hrows _].
  split; [|split].
  - intros Hin. apply Hrows in Hin as [_ [Hnone|Hle]].
    + discriminate Hnone.
    + vm_compute in Hle. apply Hle. reflexivity.
  - apply Hrows. split; [right; left; reflexivity|].
    right. vm_compute. discriminate.
  - apply Hrows. split; [right; right; left; reflexivity|].
    left. reflexivity.
Defined.

Lemma add_premium_purchase_for_premium_users_spec_witness :
  List.filter (fun p => purchase_user_id p =? 1)
    (premium_purchases (add_premium_purchase_for_premium_users 30 0 sample_db))
  = [mkPremiumPurchase 1 10 40 10 100; mkPremiumPurchase 1 0 30 10 100]
  /\ List.filter (fun p => purchase_user_id p =? 2)
       (premium_purchases (add_premium_purchase_for_premium_users 30 0 sample_db))
     = [].
Proof.
  destruct (add_premium_purchase_for_premium_users_spec 30 0 1 sample_db) as (_ & H1 & _).
  destruct (add_premium_purchase_for_premium_users_spec 30 0 2 sample_db) as (_ & H2 & _).
  split; [rewrite H1 | rewrite H2]; reflexivity.
Defined.
